(** * FmpConnector: a shallow embedding of [src/FmpConnector.py]

    The client builds request URLs from string templates, issues one blocking
    GET per operation, turns the decoded JSON into a table and, for price
    series, draws a chart.  The embedding keeps the Python control flow:
    methods are computations in a state-and-exception monad whose state holds
    the client object, the remote service, the store of caller-owned tables
    and the trace of observable effects (requests, printed lines, figures). *)

From Stdlib Require Import ZArith QArith String Ascii List Bool Lia.
From stdpp Require Import gmap strings list fin_maps pretty.

Set Warnings "-register-all".

Open Scope string_scope.
Open Scope list_scope.
Open Scope Z_scope.

(** ** Python values *)

(** What [response.json()] yields.  [JNull] is Python's [None]; an object keeps
    its members in insertion order, as a Python [dict] does. *)
Inductive json : Type :=
| JNull
| JBool (b : bool)
| JNum (q : Q)
| JStr (s : string)
| JArr (items : list json)
| JObj (members : list (string * json)).

(** A calendar day, the resolution of the daily price series. *)
Record date : Type := Date { year : Z; month : Z; day : Z }.

(** A value stored in a table: a decoded JSON value, the missing-value marker,
    or a timestamp ([None] is NaT). *)
Inductive cell : Type :=
| CJson (j : json)
| CNaN
| CTime (t : option date).

(** An axis label: a position, a field name, a timestamp or any other object. *)
Inductive label : Type :=
| LInt (n : Z)
| LStr (s : string)
| LTime (t : option date)
| LObj (c : cell).

(** [pandas.DataFrame]: column labels, row labels, the rows (one cell per
    column) and the [attrs] dictionary. *)
Record DataFrame : Type := mkDataFrame {
  columns : list label;
  index : list label;
  values : list (list cell);
  attrs : gmap string string
}.

(** The exceptions the code can meet.  [JSONDecodeError] is a subclass of
    [ValueError]. *)
Inductive exn : Type :=
| KeyError | ValueError | TypeError | IndexError | AttributeError
| NameError | ConnectionError | JSONDecodeError.

Inductive outcome (A : Type) : Type :=
| Ok (a : A)
| Raise (e : exn).
Arguments Ok {A} a.
Arguments Raise {A} e.

(** What a method hands back: a table, an integer, [None], or the class object
    [pd.DataFrame] itself (lines 181 and 259 bind [df] to the class). *)
Inductive pyobj : Type :=
| PyFrame (df : DataFrame)
| PyInt (n : Z)
| PyNone
| PyDataFrameClass.

(** ** Effects *)

(** The remote service as seen through [requests.get]: the call fails at the
    network level, or a response arrives with a status code and a body that
    decodes as JSON ([Some]) or does not ([None]). *)
Inductive http_result : Type :=
| NetworkError
| Response (status_code : Z) (body : option json).

(** One trace of a plotly figure. *)
Inductive trace : Type :=
| Bar (x : list label) (y : list cell) (name : string) (marker_color : string)
| Candlestick (x : list label) (o h l c : list cell) (name : string)
| Scatter (x : list label) (y : list cell) (name : string)
| Ohlc (x : list label) (o h l c : list cell) (name : string).

(** The five values that the title's f-string interpolates; a start or end
    given by the caller is kept as the text it was given as. *)
Record chart_title : Type := mkTitle {
  title_chart_type : string;
  title_symbol : string;
  title_interval : string;
  title_start : label;
  title_end : label
}.

(** The figure handed to [figure.show()]: two stacked panels sharing the time
    axis, the traces with the panel row each one is drawn in, and the layout. *)
Record figure : Type := mkFigure {
  row_heights : list Q;
  shared_xaxes : bool;
  height : Z;
  traces : list (trace * Z);
  title : chart_title;
  xaxis_rangeslider_visible : bool;
  rangebreaks : list (string * string)
}.

Inductive printed : Type :=
| PStr (s : string)
| PJson (j : json).

Inductive event : Type :=
| Request (url : string)
| Print (p : printed)
| Show (fig : figure).

Record FmpConnector : Type := mkFmpConnector { apikey : string }.

Record state : Type := mkState {
  self : FmpConnector;
  remote : string -> http_result;
  heap : list DataFrame;
  log : list event
}.

Definition M (A : Type) : Type := state -> outcome A * state.

Definition ret {A} (a : A) : M A := fun s => (Ok a, s).

Definition raise {A} (e : exn) : M A := fun s => (Raise e, s).

Definition bind {A B} (m : M A) (k : A -> M B) : M B :=
  fun s => match m s with
           | (Ok a, s') => k a s'
           | (Raise e, s') => (Raise e, s')
           end.

Notation "'let!' x ':=' m 'in' k" := (bind m (fun x => k))
  (at level 10, x name, m at level 100, k at level 200).
Notation "'do!' m 'in' k" := (bind m (fun _ => k))
  (at level 10, m at level 100, k at level 200).

(** [try: body except catch: handler].  Effects of [body] up to the raise are
    kept, as in Python. *)
Definition try_except {A} (body : M A) (catch : exn -> bool) (handler : M A) : M A :=
  fun s => match body s with
           | (Raise e, s') => if catch e then handler s' else (Raise e, s')
           | r => r
           end.

Definition except_KeyError (e : exn) : bool :=
  match e with KeyError => true | _ => false end.

Definition except_ValueError (e : exn) : bool :=
  match e with ValueError | JSONDecodeError => true | _ => false end.

Definition emit (ev : event) : M unit :=
  fun s => (Ok tt, mkState (self s) (remote s) (heap s) (log s ++ [ev])).

Definition print (p : printed) : M unit := emit (Print p).

Definition get_self : M FmpConnector := fun s => (Ok (self s), s).

Definition set_self (c : FmpConnector) : M unit :=
  fun s => (Ok tt, mkState c (remote s) (heap s) (log s)).

(** [requests.get(url)]: the request is issued, then either fails or returns. *)
Definition requests_get (url : string) : M (Z * option json) :=
  fun s =>
    let s' := mkState (self s) (remote s) (heap s) (log s ++ [Request url]) in
    match remote s url with
    | NetworkError => (Raise ConnectionError, s')
    | Response code body => (Ok (code, body), s')
    end.

(** [response.json()] *)
Definition response_json (r : Z * option json) : M json :=
  match snd r with
  | Some j => ret j
  | None => raise JSONDecodeError
  end.

(** [d[k]] on a dictionary. *)
Definition dict_getitem {V} (d : gmap string V) (k : string) : M V :=
  match d !! k with
  | Some v => ret v
  | None => raise KeyError
  end.

(** [l[i]] on a list, for a non-negative literal [i]. *)
Definition list_getitem {V} (l : list V) (i : nat) : M V :=
  match l !! i with
  | Some v => ret v
  | None => raise IndexError
  end.


(** ** Dates *)

Definition digit (c : ascii) : option Z :=
  let n := Z.of_N (N_of_ascii c) in
  if (48 <=? n) && (n <=? 57) then Some (n - 48) else None.

Definition is_leap (y : Z) : bool :=
  ((y mod 4 =? 0) && negb (y mod 100 =? 0)) || (y mod 400 =? 0).

Definition days_in_month (y m : Z) : Z :=
  if m =? 2 then (if is_leap y then 29 else 28)
  else if (m =? 4) || (m =? 6) || (m =? 9) || (m =? 11) then 30
  else 31.

(** The days the model takes for timestamps: pandas timestamps reach from
    1677-09-21 to 2262-04-11, and the whole years in between are kept. *)
Definition valid_date (d : date) : bool :=
  (1678 <=? year d) && (year d <=? 2261) &&
  (1 <=? month d) && (month d <=? 12) &&
  (1 <=? day d) && (day d <=? days_in_month (year d) (month d)).

(** The text form ['yyyy-MM-dd'] that the service sends and that the
    docstring of [draw_chart] asks for. *)
Definition parse_date (s : string) : option date :=
  match String.list_ascii_of_string s with
  | [y1; y2; y3; y4; dash1; m1; m2; dash2; d1; d2] =>
      match digit y1, digit y2, digit y3, digit y4,
            digit m1, digit m2, digit d1, digit d2 with
      | Some a, Some b, Some c, Some e, Some f, Some g, Some h, Some i =>
          let d := Date (1000 * a + 100 * b + 10 * c + e) (10 * f + g) (10 * h + i) in
          if Ascii.eqb dash1 "-" && Ascii.eqb dash2 "-" && valid_date d
          then Some d else None
      | _, _, _, _, _, _, _, _ => None
      end
  | _ => None
  end.

(** Chronological order through a positional key. *)
Definition date_key (d : date) : Z := year d * 10000 + month d * 100 + day d.

Definition date_ltb (a b : date) : bool := date_key a <? date_key b.
Definition date_leb (a b : date) : bool := date_key a <=? date_key b.

(** ** The pandas operations the client calls *)

(** [pd.DataFrame()] *)
Definition empty_frame : DataFrame := mkDataFrame [] [] [] ∅.

(** pandas accepts far more inputs than the service produces.  The shapes
    below are modelled after the library; what the library does on every other
    input is left open in this interface, and the results hold for all of it. *)
Class PandasRest : Type := {
  from_dict_rest : json -> outcome DataFrame;
  transpose_rest : DataFrame -> DataFrame;
  to_datetime_rest : cell -> outcome (option date);
  loc_rest : DataFrame -> option string -> option string -> outcome DataFrame
}.

Definition is_scalar (j : json) : bool :=
  match j with
  | JArr _ | JObj _ => false
  | _ => true
  end.

Definition as_record (j : json) : option (list (string * json)) :=
  match j with
  | JObj members => Some members
  | _ => None
  end.

Definition add_key (acc : list string) (k : string) : list string :=
  if bool_decide (k ∈ acc) then acc else acc ++ [k].

(** Field names in order of first appearance. *)
Definition record_keys (recs : list (list (string * json))) : list string :=
  foldl (fun acc r => foldl add_key acc (r.*1)) [] recs.

Fixpoint assoc (k : string) (members : list (string * json)) : option json :=
  match members with
  | [] => None
  | (k', v) :: rest => if String.eqb k' k then Some v else assoc k rest
  end.

Definition record_row (keys : list string) (r : list (string * json)) : list cell :=
  map (fun k => match assoc k r with Some v => CJson v | None => CNaN end) keys.

Definition range_index (n : nat) : list label :=
  map (fun i => LInt (Z.of_nat i)) (seq 0 n).

(** A list of objects becomes one row per object.  A cell is the value of the
    field, and [NaN] where the object has no such field; the number type the
    library picks for a column is not part of the model. *)
Definition frame_of_records (recs : list (list (string * json))) : DataFrame :=
  let keys := record_keys recs in
  mkDataFrame (map LStr keys) (range_index (length recs))
              (map (record_row keys) recs) ∅.

(** [pd.DataFrame.from_dict(data)] with the default orientation, which is
    [pd.DataFrame(data)]: [None] and empty containers give the empty table, a
    bare scalar and an object of scalars only are refused with [ValueError],
    a list of objects is read as records. *)
Definition from_dict `{lib : PandasRest} (data : json) : outcome DataFrame :=
  match data with
  | JNull => Ok empty_frame
  | JBool _ | JNum _ | JStr _ => Raise ValueError
  | JArr [] => Ok empty_frame
  | JArr items =>
      match mapM as_record items with
      | Some recs => Ok (frame_of_records recs)
      | None => from_dict_rest data
      end
  | JObj [] => Ok empty_frame
  | JObj members =>
      if forallb is_scalar (members.*2) then Raise ValueError
      else from_dict_rest data
  end.

Definition is_text (c : cell) : bool :=
  match c with
  | CJson (JStr _) => true
  | _ => false
  end.

(** Whether [df.values] holds the cells as they are.  The library gathers the
    columns in one array of their common type.  A column with a cell of text
    is a column of Python objects, and then so is the array: every cell stays
    the value it was.  Columns of numbers alone meet in a numeric type, which
    for whole and fractional numbers together is the 64-bit float, and a whole
    number above 2^53 is rounded on the way. *)
Definition keeps_cells (df : DataFrame) : bool :=
  forallb (fun r => match r with [] => true | _ => false end) (values df)
  || existsb (existsb is_text) (values df).

(** [df.T]: the transposition of [df.values] under the swapped labels, for a
    table without cells or with a cell of text; the other tables are left to
    the interface. *)
Definition transpose `{lib : PandasRest} (df : DataFrame) : DataFrame :=
  if keeps_cells df then
    mkDataFrame (index df) (columns df)
      (map (fun j => map (fun r => nth j r CNaN) (values df))
           (seq 0 (length (columns df))))
      (attrs df)
  else transpose_rest df.

(** [df.rename(columns={0:'info'})] *)
Definition rename_0_info (df : DataFrame) : DataFrame :=
  mkDataFrame
    (map (fun c => match c with LInt 0 => LStr "info" | _ => c end) (columns df))
    (index df) (values df) (attrs df).

Definition is_name (name : string) (c : label) : bool :=
  match c with
  | LStr s => String.eqb s name
  | _ => false
  end.

Fixpoint column_pos (name : string) (cols : list label) : option nat :=
  match cols with
  | [] => None
  | c :: rest => if is_name name c then Some 0%nat else S <$> column_pos name rest
  end.

(** [df[name]] *)
Definition getitem (df : DataFrame) (name : string) : outcome (list cell) :=
  match column_pos name (columns df) with
  | Some i => Ok (map (fun r => nth i r CNaN) (values df))
  | None => Raise KeyError
  end.

(** [df[name] = col], for a [col] of the table's length. *)
Definition setitem (df : DataFrame) (name : string) (col : list cell) : DataFrame :=
  match column_pos name (columns df) with
  | Some i =>
      mkDataFrame (columns df) (index df)
        (zip_with (fun r c => <[i:=c]> r) (values df) col) (attrs df)
  | None =>
      mkDataFrame (columns df ++ [LStr name]) (index df)
        (zip_with (fun r c => r ++ [c]) (values df) col) (attrs df)
  end.

(** [df.attrs[k] = v] *)
Definition attrs_setitem (df : DataFrame) (k v : string) : DataFrame :=
  mkDataFrame (columns df) (index df) (values df) (<[k:=v]> (attrs df)).

Definition to_datetime_cell `{lib : PandasRest} (c : cell) : outcome (option date) :=
  match c with
  | CTime t => Ok t
  | CJson (JStr s) =>
      match parse_date s with
      | Some d => Ok (Some d)
      | None => to_datetime_rest c
      end
  | _ => to_datetime_rest c
  end.

(** [pd.to_datetime(col)] *)
Fixpoint to_datetime `{lib : PandasRest} (col : list cell) : outcome (list cell) :=
  match col with
  | [] => Ok []
  | c :: rest =>
      match to_datetime_cell c with
      | Ok t =>
          match to_datetime rest with
          | Ok r => Ok (CTime t :: r)
          | Raise e => Raise e
          end
      | Raise e => Raise e
      end
  end.

Definition label_of_cell (c : cell) : label :=
  match c with
  | CTime t => LTime t
  | CJson (JStr s) => LStr s
  | _ => LObj c
  end.

(** [df.set_index(name)]: the column becomes the row labels and leaves the
    columns; [attrs] are carried over to the new table. *)
Definition set_index (df : DataFrame) (name : string) : outcome DataFrame :=
  match column_pos name (columns df) with
  | Some i =>
      Ok (mkDataFrame (delete i (columns df))
            (map (fun r => label_of_cell (nth i r CNaN)) (values df))
            (map (delete i) (values df)) (attrs df))
  | None => Raise KeyError
  end.

(** *** Label slicing on a date index *)

Definition timestamp_of (l : label) : option date :=
  match l with
  | LTime (Some d) => Some d
  | _ => None
  end.

Definition timestamps (idx : list label) : option (list date) :=
  mapM timestamp_of idx.

Fixpoint monotonic_increasing (ds : list date) : bool :=
  match ds with
  | a :: (b :: _) as rest => date_leb a b && monotonic_increasing rest
  | _ => true
  end.

(** A slice bound: absent, or a day in the documented text form. *)
Definition bound (s : option string) : option (option date) :=
  match s with
  | None => Some None
  | Some txt =>
      match parse_date txt with
      | Some d => Some (Some d)
      | None => None
      end
  end.

(** Insertion point in an increasing index: the number of leading labels that
    satisfy [p], as [searchsorted] finds it. *)
Fixpoint searchsorted (p : date -> bool) (ds : list date) : nat :=
  match ds with
  | [] => 0%nat
  | d :: rest => if p d then S (searchsorted p rest) else 0%nat
  end.

(** The positional slice [df.iloc[i:j]]; [attrs] are carried over. *)
Definition iloc (df : DataFrame) (i j : nat) : DataFrame :=
  mkDataFrame (columns df)
    (take (j - i)%nat (drop i (index df)))
    (take (j - i)%nat (drop i (values df)))
    (attrs df).

(** [df.loc[start:stop]] with text bounds.  On an increasing index of days the
    library turns both bounds into positions by search and slices between
    them, the stop bound covering its whole day.  On an index of days that is
    not increasing the library (from its version 2) wants each bound to be a
    label of the index; the stop bound is the last instant of its day, which
    no day is, and the slice is refused with [KeyError].  A slice of such an
    index by a start alone is left to the interface. *)
Definition loc `{lib : PandasRest} (df : DataFrame) (start stop : option string)
  : outcome DataFrame :=
  match timestamps (index df), bound start, bound stop with
  | Some ds, Some lo, Some hi =>
      if monotonic_increasing ds then
        let i := match lo with
                 | Some d => searchsorted (fun x => date_ltb x d) ds
                 | None => 0%nat
                 end in
        let j := match hi with
                 | Some d => searchsorted (fun x => date_leb x d) ds
                 | None => length ds
                 end in
        Ok (iloc df i j)
      else
        match hi with
        | Some _ => Raise KeyError
        | None => loc_rest df start stop
        end
  | _, _, _ => loc_rest df start stop
  end.

(** ** The store of tables *)

(** Tables that a caller passes to [draw_chart] live in the store and are
    named by their position.  Python cannot pass a name bound to nothing; the
    model answers [NameError] there. *)
Definition load (r : nat) : M DataFrame :=
  fun s => match heap s !! r with
           | Some df => (Ok df, s)
           | None => (Raise NameError, s)
           end.

(** A new table object. *)
Definition alloc (df : DataFrame) : M nat :=
  fun s => (Ok (length (heap s)),
            mkState (self s) (remote s) (heap s ++ [df]) (log s)).

(** A library call that touches no state. *)
Definition lift {A} (o : outcome A) : M A := fun s => (o, s).

(** [l[-1]] *)
Definition list_last {V} (l : list V) : M V :=
  match last l with
  | Some v => ret v
  | None => raise IndexError
  end.

(** [data[k]] on a decoded JSON value: only an object can be subscripted by a
    string. *)
Definition json_getitem (data : json) (k : string) : M json :=
  match data with
  | JObj members =>
      match assoc k members with
      | Some v => ret v
      | None => raise KeyError
      end
  | _ => raise TypeError
  end.

(** [f'{x}'] of an integer and of a value that may be [None]. *)
Definition fmt_int (n : Z) : string := pretty n.

Definition fmt_opt (s : option string) : string :=
  match s with
  | Some txt => txt
  | None => "None"
  end.

(** ** The client *)

Definition host : string := "https://financialmodelingprep.com".

(** [FmpConnector.__init__] (lines 41-50) *)
Definition __init__ (key : string) : M unit :=
  do! set_self (mkFmpConnector key) in
  let! self := get_self in
  let test_endpoint := host +:+ "/api/v3/profile/AAPL?apikey=" +:+ apikey self in
  let! response := requests_get test_endpoint in
  if fst response =? 200 then print (PStr "Connected")
  else
    let! body := response_json response in
    print (PJson body).

(** The dictionary of line 75. *)
Definition company_info_dict (self : FmpConnector) (symbol : string) (limit : Z)
  : gmap string string :=
  list_to_map
    [("company_profile",
      host +:+ "/api/v3/profile/" +:+ symbol +:+ "?apikey=" +:+ apikey self);
     ("company_rating",
      host +:+ "/api/v3/rating/" +:+ symbol +:+ "?apikey=" +:+ apikey self);
     ("historical_rating",
      host +:+ "/api/v3/historical-rating/" +:+ symbol +:+ "?limit=" +:+
      fmt_int limit +:+ "&apikey=" +:+ apikey self);
     ("recommendations",
      host +:+ "/api/v3/analyst-stock-recommendations/" +:+ symbol +:+
      "?limit=" +:+ fmt_int limit +:+ "&apikey=" +:+ apikey self)].

Definition info_type_message (info_type : string) : string :=
  "'" +:+ info_type +:+
  "' is not valid info_type - choose info type from possible options [company_profile, company_rating, historical_rating, recommendations]".

(** [get_company_info] (lines 56-99) *)
Definition get_company_info `{lib : PandasRest}
    (symbol : string) (limit : Z) (info_type : string) : M pyobj :=
  let! self := get_self in
  let data := JNull in
  let df := PyFrame empty_frame in
  let! data :=
    try_except
      (let! endpoint := dict_getitem (company_info_dict self symbol limit) info_type in
       let! response := requests_get endpoint in
       response_json response)
      except_KeyError
      (do! print (PStr (info_type_message info_type)) in ret data) in
  let! df :=
    try_except
      (if negb (bool_decide (info_type ∈ ["historical_rating"; "recommendations"]))
       then
         let! t := lift (from_dict data) in
         ret (PyFrame (rename_0_info (transpose t)))
       else
         let! t := lift (from_dict data) in
         ret (PyFrame t))
      except_ValueError
      (do! print (PJson data) in ret df) in
  ret df.

Definition statement_url (self : FmpConnector) (path symbol period : string)
    (limit : Z) : string :=
  host +:+ "/api/v3/" +:+ path +:+ "/" +:+ symbol +:+ "?period=" +:+ period +:+
  "&limit=" +:+ fmt_int limit +:+ "&apikey=" +:+ apikey self.

(** The dictionary of lines 122-128: two templates per statement, one for the
    full statement. *)
Definition report_type_dict (self : FmpConnector) (symbol period : string)
    (limit : Z) : gmap string (list string) :=
  list_to_map
    [("balance_statement",
      [statement_url self "balance-sheet-statement" symbol period limit;
       statement_url self "balance-sheet-statement-as-reported" symbol period limit]);
     ("income_statement",
      [statement_url self "income-statement" symbol period limit;
       statement_url self "income-statement-as-reported" symbol period limit]);
     ("cashflow_statement",
      [statement_url self "cash-flow-statement" symbol period limit;
       statement_url self "cash-flow-statement-as-reported" symbol period limit]);
     ("full_statement",
      [statement_url self "financial-statement-full-as-reported" symbol period limit])].

Definition period_message (period : string) : string :=
  "'" +:+ period +:+
  "' is not valid option for period - choose from possible options [annual, quarter]".

Definition report_type_message (report_type : string) : string :=
  "'" +:+ report_type +:+
  "' is not valid report_type - choose info type from possible options [balance_statement, income_statement, cashflow_statement, full_statement]".

(** [get_financial_data] (lines 101-156) *)
Definition get_financial_data `{lib : PandasRest}
    (symbol report_type period : string) (limit : Z) (as_reported : bool)
  : M pyobj :=
  let! self := get_self in
  let templates := report_type_dict self symbol period limit in
  if negb (bool_decide (period ∈ ["annual"; "quarter"])) then
    do! print (PStr (period_message period)) in
    ret (PyInt 0)
  else
    let data := JNull in
    let df := PyFrame empty_frame in
    let! data :=
      try_except
        (let! entry := dict_getitem templates report_type in
         let! endpoint := list_getitem entry 0 in
         let! endpoint :=
           if as_reported && negb (bool_decide (report_type = "full_statement"))
           then
             let! entry := dict_getitem templates report_type in
             list_getitem entry 1
           else ret endpoint in
         let! response := requests_get endpoint in
         response_json response)
        except_KeyError
        (do! print (PStr (report_type_message report_type)) in ret data) in
    let! df :=
      try_except
        (let! t := lift (from_dict data) in
         ret (PyFrame (rename_0_info t)))
        except_ValueError
        (do! print (PJson data) in ret df) in
    ret df.

(** The dictionary of lines 175-178. *)
Definition asset_type_dict (self : FmpConnector) : gmap string string :=
  list_to_map
    [("forex",
      host +:+ "/api/v3/symbol/available-forex-currency-pairs?apikey=" +:+ apikey self);
     ("stock",
      host +:+ "/api/v3/stock/list?apikey=" +:+ apikey self);
     ("commodities",
      host +:+ "/api/v3/symbol/available-commodities?apikey=" +:+ apikey self);
     ("crypto",
      host +:+ "/api/v3/symbol/available-cryptocurrencies?apikey=" +:+ apikey self)].

Definition asset_type_message (asset_type : string) : string :=
  "'" +:+ asset_type +:+
  "' is not valid asset_type - choose info type from possible options [forex, stock, crypto, commodities]".

(** [get_instruments] (lines 158-196).  Line 181 binds [df] to the class
    [pd.DataFrame], not to an instance. *)
Definition get_instruments `{lib : PandasRest} (asset_type : string) : M pyobj :=
  let! self := get_self in
  let data := JNull in
  let df := PyDataFrameClass in
  let! data :=
    try_except
      (let! endpoint := dict_getitem (asset_type_dict self) asset_type in
       let! response := requests_get endpoint in
       response_json response)
      except_KeyError
      (do! print (PStr (asset_type_message asset_type)) in ret data) in
  let! df :=
    try_except
      (let! t := lift (from_dict data) in ret (PyFrame t))
      except_ValueError
      (do! print (PJson data) in ret df) in
  ret df.

(** [get_daily_prices] (lines 199-228) *)
Definition get_daily_prices `{lib : PandasRest} (symbol : string) : M pyobj :=
  let! self := get_self in
  let endpoint :=
    host +:+ "/api/v3/historical-price-full/" +:+ symbol +:+ "?apikey=" +:+
    apikey self in
  let! response := requests_get endpoint in
  let! data := response_json response in
  let df := empty_frame in
  let! df :=
    try_except
      (let! historical := json_getitem data "historical" in
       lift (from_dict historical))
      except_ValueError
      (do! print (PJson data) in ret df) in
  let df := attrs_setitem df "instrument" symbol in
  let! col := lift (getitem df "date") in
  let! col := lift (to_datetime col) in
  let df := setitem df "date" col in
  let! df := lift (set_index df "date") in
  ret (PyFrame df).

Definition news_url (self : FmpConnector) (path filter : string) (limit : Z) : string :=
  host +:+ path +:+ "?" +:+ filter +:+ "limit=" +:+ fmt_int limit +:+ "&apikey=" +:+
  apikey self.

(** The dictionary of lines 250-255: the general feed first, the feed of one
    instrument second. *)
Definition market_type_dict (self : FmpConnector) (symbol : option string)
    (limit : Z) : gmap string (list string) :=
  list_to_map
    [("stock",
      [news_url self "/api/v3/stock_news" "" limit;
       news_url self "/api/v3/stock_news" ("tickers=" +:+ fmt_opt symbol +:+ "&") limit]);
     ("forex",
      [news_url self "/api/v4/forex_news" "" limit;
       news_url self "/api/v4/forex_news" ("symbol=" +:+ fmt_opt symbol +:+ "&") limit]);
     ("crypto",
      [news_url self "/api/v4/crypto_news" "" limit;
       news_url self "/api/v4/crypto_news" ("symbol=" +:+ fmt_opt symbol +:+ "&") limit])].

Definition market_type_message (market_type : string) : string :=
  "'" +:+ market_type +:+
  "' is not valid market_type - choose info type from possible options [stock,forex,crypto]".

(** [get_market_news] (lines 230-275).  Line 259 binds [df] to the class. *)
Definition get_market_news `{lib : PandasRest}
    (market_type : string) (symbol : option string) (limit : Z) : M pyobj :=
  let! self := get_self in
  let templates := market_type_dict self symbol limit in
  let data := JNull in
  let df := PyDataFrameClass in
  let! data :=
    try_except
      (let! entry := dict_getitem templates market_type in
       let! endpoint := list_getitem entry 0 in
       let! endpoint :=
         match symbol with
         | Some _ =>
             let! entry := dict_getitem templates market_type in
             list_getitem entry 1
         | None => ret endpoint
         end in
       let! response := requests_get endpoint in
       response_json response)
      except_KeyError
      (do! print (PStr (market_type_message market_type)) in ret data) in
  let! df :=
    try_except
      (let! t := lift (from_dict data) in ret (PyFrame t))
      except_ValueError
      (do! print (PJson data) in ret df) in
  ret df.

(** [get_sentiment] (lines 277-302) *)
Definition get_sentiment `{lib : PandasRest} (symbol : string) (limit : Z) : M pyobj :=
  let! self := get_self in
  let endpoint :=
    host +:+ "/api/v4/historical/social-sentiment?symbol=" +:+ symbol +:+
    "&limit=" +:+ fmt_int limit +:+ "&apikey=" +:+ apikey self in
  let! response := requests_get endpoint in
  let! data := response_json response in
  let df := PyFrame empty_frame in
  let! df :=
    try_except
      (let! t := lift (from_dict data) in ret (PyFrame t))
      except_ValueError
      (do! print (PJson data) in ret df) in
  ret df.

Definition chart_type_message (chart_type : string) : string :=
  "'" +:+ chart_type +:+
  "' is not valid option for chart_type - choose from possible options ['candle','line','ohlc']".

(** Lines 327-342: the displayed window.  The slice of a table is a new table
    object; without bounds [df_plot] is the caller's table itself.  Returns
    the reference [df_plot] with [start_to_plot] and [end_to_plot]. *)
Definition select_window `{lib : PandasRest} (df : nat) (start stop : option string)
  : M (nat * label * label) :=
  let! table := load df in
  let! start_to_plot := list_getitem (index table) 0 in
  let! end_to_plot := list_last (index table) in
  match start, stop with
  | Some s, None =>
      let! part := lift (loc table (Some s) None) in
      let! df_plot := alloc part in
      ret (df_plot, LStr s, end_to_plot)
  | None, Some e =>
      let! part := lift (loc table None (Some e)) in
      let! df_plot := alloc part in
      ret (df_plot, start_to_plot, LStr e)
  | Some s, Some e =>
      let! part := lift (loc table (Some s) (Some e)) in
      let! df_plot := alloc part in
      ret (df_plot, LStr s, LStr e)
  | None, None => ret (df, start_to_plot, end_to_plot)
  end.

(** Lines 357-378: the price trace of the upper panel. *)
Definition price_trace (plot : DataFrame) (chart_type instrument : string)
  : M (list (trace * Z)) :=
  if String.eqb chart_type "candle" then
    let! o := lift (getitem plot "open") in
    let! h := lift (getitem plot "high") in
    let! l := lift (getitem plot "low") in
    let! c := lift (getitem plot "close") in
    ret [(Candlestick (index plot) o h l c instrument, 1)]
  else if String.eqb chart_type "line" then
    let! c := lift (getitem plot "close") in
    ret [(Scatter (index plot) c instrument, 1)]
  else if String.eqb chart_type "ohlc" then
    let! o := lift (getitem plot "open") in
    let! h := lift (getitem plot "high") in
    let! l := lift (getitem plot "low") in
    let! c := lift (getitem plot "close") in
    ret [(Ohlc (index plot) o h l c instrument, 1)]
  else ret [].

(** [draw_chart] (lines 304-381).  [df] names the caller's table in the
    store. *)
Definition draw_chart `{lib : PandasRest}
    (df : nat) (start stop : option string) (chart_type : string) : M pyobj :=
  if negb (bool_decide (chart_type ∈ ["candle"; "line"; "ohlc"])) then
    do! print (PStr (chart_type_message chart_type)) in
    ret (PyInt 0)
  else
    let! window := select_window df start stop in
    let '(df_plot, start_to_plot, end_to_plot) := window in
    let! plot := load df_plot in
    let! symbol := dict_getitem (attrs plot) "instrument" in
    let interval :=
      match attrs plot !! "interval" with
      | Some i => i
      | None => "daily"
      end in
    let title :=
      mkTitle chart_type symbol interval start_to_plot end_to_plot in
    let! volume := lift (getitem plot "volume") in
    let bar := (Bar (index plot) volume "volume" "blue", 2) in
    let! instrument := dict_getitem (attrs plot) "instrument" in
    let! price := price_trace plot chart_type instrument in
    do! emit (Show (mkFigure [4 # 5; 1 # 5]%Q true 800 (bar :: price) title false
                      [("sat", "mon")])) in
    ret PyNone.

(** ** Observations on a run *)

(** The URLs requested, in order. *)
Fixpoint requests_of (l : list event) : list string :=
  match l with
  | [] => []
  | Request url :: rest => url :: requests_of rest
  | _ :: rest => requests_of rest
  end.

(** [url] ends with the query parameter [apikey=key]. *)
Definition carries_apikey (key url : string) : Prop :=
  exists front, url = front +:+ "apikey=" +:+ key.

(** One library behaviour on the inputs left open by [PandasRest], for running
    the model on concrete inputs: everything else is refused, and the
    transposition, which cannot refuse, answers with the empty table. *)
Definition pandas_refusing : PandasRest :=
  {| from_dict_rest := fun _ => Raise TypeError;
     transpose_rest := fun _ => empty_frame;
     to_datetime_rest := fun _ => Raise TypeError;
     loc_rest := fun _ _ _ => Raise KeyError |}.

(** A method call on the client, with its arguments. *)
Inductive method_call : Type :=
| Call_get_company_info (symbol : string) (limit : Z) (info_type : string)
| Call_get_financial_data (symbol report_type period : string) (limit : Z)
    (as_reported : bool)
| Call_get_instruments (asset_type : string)
| Call_get_daily_prices (symbol : string)
| Call_get_market_news (market_type : string) (symbol : option string) (limit : Z)
| Call_get_sentiment (symbol : string) (limit : Z)
| Call_draw_chart (df : nat) (start stop : option string) (chart_type : string).

Definition perform `{lib : PandasRest} (c : method_call) : M pyobj :=
  match c with
  | Call_get_company_info symbol limit info_type =>
      get_company_info symbol limit info_type
  | Call_get_financial_data symbol report_type period limit as_reported =>
      get_financial_data symbol report_type period limit as_reported
  | Call_get_instruments asset_type => get_instruments asset_type
  | Call_get_daily_prices symbol => get_daily_prices symbol
  | Call_get_market_news market_type symbol limit =>
      get_market_news market_type symbol limit
  | Call_get_sentiment symbol limit => get_sentiment symbol limit
  | Call_draw_chart df start stop chart_type => draw_chart df start stop chart_type
  end.

(** A caller performing calls one after the other, going on after a call that
    raised. *)
Definition run `{lib : PandasRest} (calls : list method_call) (s : state) : state :=
  foldl (fun st c => snd (perform c st)) s calls.

(** *** The statement endpoints as the specification words them *)

(** The path segment of a statement category; the as-reported flag selects the
    alternate template, except for the full statement, which has one. *)
Definition spec_statement_path (report_type : string) (as_reported : bool)
  : string :=
  if String.eqb report_type "full_statement"
  then "financial-statement-full-as-reported"
  else
    (if String.eqb report_type "balance_statement" then "balance-sheet-statement"
     else if String.eqb report_type "income_statement" then "income-statement"
     else "cash-flow-statement")
    +:+ (if as_reported then "-as-reported" else "").

Definition spec_statement_url (key symbol report_type period : string) (limit : Z)
    (as_reported : bool) : string :=
  "https://financialmodelingprep.com/api/v3/" +:+
  spec_statement_path report_type as_reported +:+ "/" +:+ symbol +:+
  "?period=" +:+ period +:+ "&limit=" +:+ fmt_int limit +:+ "&apikey=" +:+ key.

(** *** The displayed window as the specification words it *)

(** A day lies in the window when it is not before the start and not after
    the end; an absent bound does not restrict. *)
Definition in_window (lo hi : option date) (d : date) : bool :=
  match lo with Some a => date_leb a d | None => true end &&
  match hi with Some b => date_leb d b | None => true end.

(** The entries of [xs] whose day, at the same position in [ds], satisfies
    [p]. *)
Fixpoint select {A} (p : date -> bool) (ds : list date) (xs : list A) : list A :=
  match ds, xs with
  | d :: ds', x :: xs' => if p d then x :: select p ds' xs' else select p ds' xs'
  | _, _ => []
  end.

(** The rows of a series [df], dated [ds], that lie in the closed interval. *)
Definition spec_window (df : DataFrame) (ds : list date) (lo hi : option date)
  : DataFrame :=
  mkDataFrame (columns df)
    (select (in_window lo hi) ds (index df))
    (select (in_window lo hi) ds (values df))
    (attrs df).

Definition trace_x (t : trace) : list label :=
  match t with
  | Bar x _ _ _ => x
  | Candlestick x _ _ _ _ _ => x
  | Scatter x _ _ => x
  | Ohlc x _ _ _ _ _ => x
  end.

(** *** Text of the printed messages *)

Fixpoint starts_with (p s : string) : bool :=
  match p, s with
  | EmptyString, _ => true
  | String a p', String b s' => Ascii.eqb a b && starts_with p' s'
  | String _ _, EmptyString => false
  end.

Fixpoint contains (needle hay : string) : bool :=
  starts_with needle hay ||
  match hay with
  | EmptyString => false
  | String _ rest => contains needle rest
  end.

(** [hay] has [needle] as a substring. *)
Definition mentions (needle hay : string) : Prop :=
  exists front back, hay = front +:+ needle +:+ back.

(** *** Runs of the shared fetch-and-tabulate pattern *)

Definition logged (ev : event) (s : state) : state :=
  mkState (self s) (remote s) (heap s) (log s ++ [ev]).

(** What the second [try] block of a fetch method does with decoded [data]:
    [post] is applied to the table, and a [ValueError] prints [data] and
    leaves [df0]. *)
Definition tabulated `{lib : PandasRest} (post : DataFrame -> pyobj) (df0 : pyobj)
    (data : json) (s : state) : outcome pyobj * state :=
  match from_dict data with
  | Ok t => (Ok (post t), s)
  | Raise e =>
      if except_ValueError e then (Ok df0, logged (Print (PJson data)) s)
      else (Raise e, s)
  end.

(** A fetch method once its URL is known. *)
Definition fetched `{lib : PandasRest} (post : DataFrame -> pyobj) (df0 : pyobj)
    (url : string) (s : state) : outcome pyobj * state :=
  match remote s url with
  | NetworkError => (Raise ConnectionError, logged (Request url) s)
  | Response _ None => (Raise JSONDecodeError, logged (Request url) s)
  | Response _ (Some data) => tabulated post df0 data (logged (Request url) s)
  end.

(** *** Concrete services and tables *)

Definition offline : string -> http_result := fun _ => NetworkError.

Definition answering (code : Z) (body : option json) : string -> http_result :=
  fun _ => Response code body.

Definition demo_state (service : string -> http_result) (tables : list DataFrame)
  : state :=
  mkState (mkFmpConnector "demo") service tables [].

(** The body the service sends for a request it refuses. *)
Definition error_body : json :=
  JObj [("Error Message", JStr "Invalid API KEY.")].

Definition aapl_response : json :=
  JObj [("historical",
         JArr [JObj [("date", JStr "2023-01-03"); ("open", JNum 1);
                     ("high", JNum 2); ("low", JNum (1 # 2));
                     ("close", JNum (3 # 2)); ("volume", JNum 100)]])].

Definition aapl_table : DataFrame :=
  mkDataFrame
    [LStr "open"; LStr "high"; LStr "low"; LStr "close"; LStr "volume"]
    [LTime (Some (Date 2023 1 3))]
    [[CJson (JNum 1); CJson (JNum 2); CJson (JNum (1 # 2)); CJson (JNum (3 # 2));
      CJson (JNum 100)]]
    {["instrument" := "AAPL"]}.

Definition january (d : Z) : date := Date 2023 1 d.

Definition january_days : list date :=
  map january [1; 2; 3; 4; 5; 6; 7; 8; 9; 10].

Definition price_row (d : date) : list cell :=
  [CJson (JNum 1); CJson (JNum 2); CJson (JNum (1 # 2)); CJson (JNum (3 # 2));
   CJson (JNum (inject_Z (day d)))].

(** A series spanning 2023-01-01 .. 2023-01-10, one row per day; the volume
    of a row is its day of the month. *)
Definition january_series : DataFrame :=
  mkDataFrame
    [LStr "open"; LStr "high"; LStr "low"; LStr "close"; LStr "volume"]
    (map (fun d => LTime (Some d)) january_days)
    (map price_row january_days)
    {["instrument" := "AAPL"]}.

(** *** What rejecting a selector means *)

(** The run [r] from state [s] rejected a selector: it returned [result],
    printed [msg] and did nothing else, so no request was issued, and [msg]
    names every one of [options]. *)
Definition rejects (msg : string) (options : list string) (result : pyobj)
    (s : state) (r : outcome pyobj * state) : Prop :=
  fst r = Ok result /\
  snd r = logged (Print (PStr msg)) s /\
  requests_of (log (snd r)) = requests_of (log s) /\
  Forall (fun o => mentions o msg) options.

(** *** Equal responses *)

Definition is_fetch (c : method_call) : bool :=
  match c with
  | Call_draw_chart _ _ _ _ => false
  | _ => true
  end.

(** Two states hold the same client and a service that answers alike; their
    stores and their traces may differ. *)
Definition agree (s1 s2 : state) : Prop :=
  self s1 = self s2 /\ forall url, remote s1 url = remote s2 url.

(** A computation whose outcome is a function of the client and of the
    service's answers alone, and which keeps two such states in agreement. *)
Definition deterministic {A} (m : M A) : Prop :=
  forall s1 s2, agree s1 s2 ->
    fst (m s1) = fst (m s2) /\ agree (snd (m s1)) (snd (m s2)).

(** A response with a ["historical"] member that is not a list of
    observations. *)
Definition odd_history : json :=
  JObj [("historical", JObj [("symbol", JStr "AAPL")])].

(** *** What a method may change *)

Definition event_ok (key : string) (ev : event) : Prop :=
  match ev with
  | Request url => carries_apikey key url
  | _ => True
  end.

(** From [s] to [s']: the client and the service are the same, the tables of
    the store are where they were and as they were, with new ones after them
    at most, and every request added to the trace carries [key]. *)
Definition extends (key : string) (s s' : state) : Prop :=
  self s' = self s /\
  remote s' = remote s /\
  (exists fresh, heap s' = heap s ++ fresh) /\
  (exists new, log s' = log s ++ new /\ Forall (event_ok key) new).

(** [m], run on a client whose credential is [key], only extends the state,
    and a value it returns satisfies [Q]. *)
Definition keeps (key : string) {A} (m : M A) (Q : A -> Prop) : Prop :=
  forall s, apikey (self s) = key ->
    extends key s (snd (m s)) /\ (forall a, fst (m s) = Ok a -> Q a).

(** *** Well-formed price series *)

(** A test that holds before a day whenever it holds on that day. *)
Definition downward (p : date -> bool) : Prop :=
  forall a b, date_leb a b = true -> p b = true -> p a = true.

(** The fields a chart kind reads: the line chart needs the close and the
    volume, the two bar kinds need all five. *)
Definition required_columns (chart_type : string) : list string :=
  if String.eqb chart_type "line" then ["close"; "volume"]
  else ["open"; "high"; "low"; "close"; "volume"].

Definition has_columns (df : DataFrame) (names : list string) : bool :=
  forallb (fun n => bool_decide (is_Some (column_pos n (columns df)))) names.

(** *** Further observations *)

(** [FmpConnector.__repr__] (lines 52-54) *)
Definition __repr__ : M string := ret "FmpConnector module".

(** The figures shown, in order. *)
Fixpoint shows_of (l : list event) : list figure :=
  match l with
  | [] => []
  | Show fig :: rest => fig :: shows_of rest
  | _ :: rest => shows_of rest
  end.

(** What one fetch call may add to the trace: the message of a rejected
    selector, one request, or one request followed by the printed response. *)
Definition trace_shape (new : list event) : Prop :=
  (exists msg, new = [Print (PStr msg)]) \/
  (exists url, new = [Request url]) \/
  (exists url data, new = [Request url; Print (PJson data)]).

(** The two ways a dictionary-dispatched method runs: the selector is
    rejected, or one URL is fetched and tabulated. *)
Definition fetch_outcome `{lib : PandasRest} (s : state)
    (r : outcome pyobj * state) : Prop :=
  (exists msg res, r = (Ok res, logged (Print (PStr msg)) s)) \/
  (exists post df0 url, r = fetched post df0 url s).

(** The fetch methods that tabulate the whole decoded body. *)
Definition is_tabulating (c : method_call) : bool :=
  match c with
  | Call_draw_chart _ _ _ _ | Call_get_daily_prices _ => false
  | _ => true
  end.

(** The news feeds as the source lays them out: the stock feed under
    [/api/v3] filtered by [tickers], the other feeds under [/api/v4] filtered
    by [symbol]; without an instrument there is no filter. *)
Definition news_endpoint (key market_type : string) (symbol : option string)
    (limit : Z) : string :=
  let stock := String.eqb market_type "stock" in
  "https://financialmodelingprep.com/api/" +:+ (if stock then "v3" else "v4") +:+
  "/" +:+ market_type +:+ "_news?" +:+
  match symbol with
  | Some s => (if stock then "tickers=" else "symbol=") +:+ s +:+ "&"
  | None => ""
  end +:+ "limit=" +:+ fmt_int limit +:+ "&apikey=" +:+ key.

(** Lines 225-228 of [get_daily_prices] on the table [df]: tag it with the
    instrument, parse its [date] column and make it the row labels. *)
Definition dated `{lib : PandasRest} (symbol : string) (df : DataFrame)
  : outcome pyobj :=
  let tagged := attrs_setitem df "instrument" symbol in
  match getitem tagged "date" with
  | Raise e => Raise e
  | Ok col =>
      match to_datetime col with
      | Raise e => Raise e
      | Ok days =>
          match set_index (setitem tagged "date" days) "date" with
          | Ok t => Ok (PyFrame t)
          | Raise e => Raise e
          end
      end
  end.

(** [get_daily_prices] once the service has answered with [data]. *)
Definition priced `{lib : PandasRest} (symbol : string) (data : json) (s : state)
  : outcome pyobj * state :=
  match data with
  | JObj members =>
      match assoc "historical" members with
      | Some historical =>
          match from_dict historical with
          | Ok t => (dated symbol t, s)
          | Raise e =>
              if except_ValueError e
              then (dated symbol empty_frame, logged (Print (PJson data)) s)
              else (Raise e, s)
          end
      | None => (Raise KeyError, s)
      end
  | _ => (Raise TypeError, s)
  end.

(** A computation that adds nothing to the trace. *)
Definition logless {A} (m : M A) : Prop :=
  forall s, log (snd (m s)) = log s.

(** A computation that either shows one figure and returns [None], or raises
    with the trace as it was. *)
Definition shows_or_raises (m : M pyobj) : Prop :=
  forall s,
    (fst (m s) = Ok PyNone /\ exists fig, log (snd (m s)) = log s ++ [Show fig])
    \/ (exists e, fst (m s) = Raise e /\ log (snd (m s)) = log s).


(** *** A history of two days *)

Definition observation (day : string) (volume : Z) : list (string * json) :=
  [("date", JStr day); ("open", JNum 1); ("high", JNum 2); ("low", JNum (1 # 2));
   ("close", JNum (3 # 2)); ("volume", JNum (inject_Z volume))].

Definition aapl_history : list (list (string * json)) :=
  [observation "2023-01-04" 120; observation "2023-01-03" 100].

(** The service lists the newest observation first. *)
Definition aapl_history_response : json :=
  JObj [("historical", JArr (map JObj aapl_history))].

(** The January series without the instrument in its [attrs]. *)
Definition untagged_series : DataFrame :=
  mkDataFrame (columns january_series) (index january_series)
    (values january_series) ∅.




(** * Properties *)

#[local] Arguments company_info_dict : simpl never.
#[local] Arguments report_type_dict : simpl never.
#[local] Arguments asset_type_dict : simpl never.
#[local] Arguments market_type_dict : simpl never.

(** Unfolds the monad and the effect primitives, leaving the dictionaries and
    the library calls folded. *)
Ltac run_monad :=
  unfold bind, try_except, ret, raise, lift, print, emit, get_self, requests_get,
    response_json, dict_getitem, list_getitem, logged;
  cbn beta iota delta [fst snd self remote heap log apikey negb].

(** Splits on what the service answers and on what the library makes of it. *)
Ltac split_response st url :=
  destruct (remote st url) as [|? [?|]]; simpl; try reflexivity;
  match goal with
  | |- context [from_dict ?d] =>
      destruct (from_dict d) as [?|[]]; simpl; reflexivity
  end.

Section Runs.
Context `{lib : PandasRest}.

Lemma requests_of_app (l1 l2 : list event) :
  requests_of (l1 ++ l2) = requests_of l1 ++ requests_of l2.
Proof.
  induction l1 as [|ev l1 IH]; simpl; [reflexivity|].
  destruct ev; simpl; rewrite IH; reflexivity.
Qed.

Lemma get_company_info_known st symbol limit info_type url :
  company_info_dict (self st) symbol limit !! info_type = Some url ->
  get_company_info symbol limit info_type st
  = fetched
      (if negb (bool_decide (info_type ∈ ["historical_rating"; "recommendations"]))
       then fun t => PyFrame (rename_0_info (transpose t)) else PyFrame)
      (PyFrame empty_frame) url st.
Proof.
  intros Hd. unfold get_company_info, fetched, tabulated.
  run_monad. rewrite Hd.
  destruct (bool_decide (info_type ∈ ["historical_rating"; "recommendations"]));
    simpl; split_response st url.
Qed.

Lemma get_company_info_unknown st symbol limit info_type :
  company_info_dict (self st) symbol limit !! info_type = None ->
  get_company_info symbol limit info_type st
  = (Ok (PyFrame empty_frame), logged (Print (PStr (info_type_message info_type))) st).
Proof.
  intros Hd. unfold get_company_info. run_monad. rewrite Hd.
  destruct (bool_decide (info_type ∈ ["historical_rating"; "recommendations"]));
    reflexivity.
Qed.

Lemma get_financial_data_period st symbol report_type period limit as_reported :
  period ∉ ["annual"; "quarter"] ->
  get_financial_data symbol report_type period limit as_reported st
  = (Ok (PyInt 0), logged (Print (PStr (period_message period))) st).
Proof.
  intros Hp. unfold get_financial_data.
  rewrite (bool_decide_eq_false_2 _ Hp). reflexivity.
Qed.

Lemma get_financial_data_known st symbol report_type period limit as_reported
    entry url :
  period ∈ ["annual"; "quarter"] ->
  report_type_dict (self st) symbol period limit !! report_type = Some entry ->
  is_Some (entry !! 0%nat) ->
  entry !! (if as_reported && negb (bool_decide (report_type = "full_statement"))
            then 1 else 0)%nat = Some url ->
  get_financial_data symbol report_type period limit as_reported st
  = fetched (fun t => PyFrame (rename_0_info t)) (PyFrame empty_frame) url st.
Proof.
  intros Hp Hd [u0 H0] Hsel.
  unfold get_financial_data, fetched, tabulated.
  rewrite (bool_decide_eq_true_2 _ Hp).
  run_monad. rewrite Hd. simpl. rewrite H0. simpl.
  destruct (as_reported && negb (bool_decide (report_type = "full_statement")));
    simpl.
  - rewrite Hsel. simpl. split_response st url.
  - assert (u0 = url) by congruence. subst u0. split_response st url.
Qed.

Lemma get_financial_data_unknown st symbol report_type period limit as_reported :
  period ∈ ["annual"; "quarter"] ->
  report_type_dict (self st) symbol period limit !! report_type = None ->
  get_financial_data symbol report_type period limit as_reported st
  = (Ok (PyFrame empty_frame),
     logged (Print (PStr (report_type_message report_type))) st).
Proof.
  intros Hp Hd. unfold get_financial_data.
  rewrite (bool_decide_eq_true_2 _ Hp).
  run_monad. rewrite Hd. reflexivity.
Qed.

Lemma get_instruments_known st asset_type url :
  asset_type_dict (self st) !! asset_type = Some url ->
  get_instruments asset_type st = fetched PyFrame PyDataFrameClass url st.
Proof.
  intros Hd. unfold get_instruments, fetched, tabulated.
  run_monad. rewrite Hd. simpl. split_response st url.
Qed.

Lemma get_instruments_unknown st asset_type :
  asset_type_dict (self st) !! asset_type = None ->
  get_instruments asset_type st
  = (Ok (PyFrame empty_frame),
     logged (Print (PStr (asset_type_message asset_type))) st).
Proof.
  intros Hd. unfold get_instruments. run_monad. rewrite Hd. reflexivity.
Qed.

Lemma get_market_news_known st market_type symbol limit entry url :
  market_type_dict (self st) symbol limit !! market_type = Some entry ->
  is_Some (entry !! 0%nat) ->
  entry !! (if symbol is Some _ then 1 else 0)%nat = Some url ->
  get_market_news market_type symbol limit st
  = fetched PyFrame PyDataFrameClass url st.
Proof.
  intros Hd [u0 H0] Hsel.
  unfold get_market_news, fetched, tabulated.
  run_monad. rewrite Hd. simpl. rewrite H0. simpl.
  destruct symbol as [sym|]; simpl.
  - rewrite Hsel. simpl. split_response st url.
  - assert (u0 = url) by congruence. subst u0. split_response st url.
Qed.

Lemma get_market_news_unknown st market_type symbol limit :
  market_type_dict (self st) symbol limit !! market_type = None ->
  get_market_news market_type symbol limit st
  = (Ok (PyFrame empty_frame),
     logged (Print (PStr (market_type_message market_type))) st).
Proof.
  intros Hd. unfold get_market_news. run_monad. rewrite Hd. reflexivity.
Qed.

Lemma get_sentiment_run st symbol limit :
  get_sentiment symbol limit st
  = fetched PyFrame (PyFrame empty_frame)
      (host +:+ "/api/v4/historical/social-sentiment?symbol=" +:+ symbol +:+
       "&limit=" +:+ fmt_int limit +:+ "&apikey=" +:+ apikey (self st)) st.
Proof.
  unfold get_sentiment, fetched, tabulated. run_monad.
  match goal with |- context [remote st ?u] => split_response st u end.
Qed.

End Runs.

(** ** Text *)

Lemma append_assoc (a b c : string) : (a +:+ b) +:+ c = a +:+ b +:+ c.
Proof.
  induction a as [|ch a IH]; [reflexivity|].
  change (String ch ((a +:+ b) +:+ c) = String ch (a +:+ b +:+ c)).
  rewrite IH. reflexivity.
Qed.

Lemma starts_with_sound (p s : string) :
  starts_with p s = true -> exists back, s = p +:+ back.
Proof.
  revert s. induction p as [|a p IH]; intros s Hs.
  - exists s. reflexivity.
  - destruct s as [|b s]; simpl in Hs; [discriminate|].
    apply andb_true_iff in Hs as [Hab Hps].
    apply Ascii.eqb_eq in Hab. subst b.
    destruct (IH s Hps) as [back ->]. exists back. reflexivity.
Qed.

Lemma contains_sound (needle hay : string) :
  contains needle hay = true -> mentions needle hay.
Proof.
  induction hay as [|c hay IH]; simpl; intros Hc.
  - rewrite orb_false_r in Hc. apply starts_with_sound in Hc as [back Hb].
    exists "", back. exact Hb.
  - apply orb_true_iff in Hc as [Hp|Hr].
    + apply starts_with_sound in Hp as [back Hb]. exists "", back. exact Hb.
    + destruct (IH Hr) as (front & back & ->).
      exists (String c front), back. reflexivity.
Qed.

Lemma mentions_after (needle front hay : string) :
  mentions needle hay -> mentions needle (front +:+ hay).
Proof.
  intros (a & b & ->). exists (front +:+ a), b. rewrite append_assoc. reflexivity.
Qed.

(** Every listed option occurs in a message that ends with the text [tail]. *)
Lemma options_mentioned (options : list string) (sel tail : string) :
  forallb (fun o => contains o tail) options = true ->
  Forall (fun o => mentions o ("'" +:+ sel +:+ tail)) options.
Proof.
  intros Hall. apply Forall_forall. intros o Ho.
  apply mentions_after, mentions_after, contains_sound.
  rewrite forallb_forall in Hall. apply Hall. apply list_elem_of_In. exact Ho.
Qed.

Section Client.
Context `{lib : PandasRest}.

Lemma fetched_requests post df0 url st :
  requests_of (log (snd (fetched post df0 url st))) = requests_of (log st) ++ [url].
Proof.
  unfold fetched, tabulated, logged.
  destruct (remote st url) as [|code [data|]]; simpl;
    rewrite ?requests_of_app; try reflexivity.
  destruct (from_dict data) as [t|e]; simpl; rewrite ?requests_of_app;
    [reflexivity|].
  destruct (except_ValueError e); simpl; rewrite !requests_of_app; simpl;
    rewrite ?app_nil_r; reflexivity.
Qed.

Lemma company_info_dict_unknown c symbol limit info_type :
  info_type ∉ ["company_profile"; "company_rating"; "historical_rating";
               "recommendations"] ->
  company_info_dict c symbol limit !! info_type = None.
Proof. intros Hn. apply not_elem_of_list_to_map. exact Hn. Qed.

Lemma report_type_dict_unknown c symbol period limit report_type :
  report_type ∉ ["balance_statement"; "income_statement"; "cashflow_statement";
                 "full_statement"] ->
  report_type_dict c symbol period limit !! report_type = None.
Proof. intros Hn. apply not_elem_of_list_to_map. exact Hn. Qed.

Lemma asset_type_dict_unknown c asset_type :
  asset_type ∉ ["forex"; "stock"; "commodities"; "crypto"] ->
  asset_type_dict c !! asset_type = None.
Proof. intros Hn. apply not_elem_of_list_to_map. exact Hn. Qed.

Lemma market_type_dict_unknown c symbol limit market_type :
  market_type ∉ ["stock"; "forex"; "crypto"] ->
  market_type_dict c symbol limit !! market_type = None.
Proof. intros Hn. apply not_elem_of_list_to_map. exact Hn. Qed.

Lemma draw_chart_unknown st df start stop chart_type :
  chart_type ∉ ["candle"; "line"; "ohlc"] ->
  draw_chart df start stop chart_type st
  = (Ok (PyInt 0), logged (Print (PStr (chart_type_message chart_type))) st).
Proof.
  intros Hn. unfold draw_chart. rewrite (bool_decide_eq_false_2 _ Hn). reflexivity.
Qed.

(** C2.  For every valid report type and period, [get_financial_data] issues
    one request, to the URL that the specification's template gives for the
    category, the as-reported flag, the symbol, the period and the limit. *)
Theorem get_financial_data_endpoint st symbol report_type period limit as_reported :
  report_type ∈ ["balance_statement"; "income_statement"; "cashflow_statement";
                 "full_statement"] ->
  period ∈ ["annual"; "quarter"] ->
  requests_of
    (log (snd (get_financial_data symbol report_type period limit as_reported st)))
  = requests_of (log st) ++
    [spec_statement_url (apikey (self st)) symbol report_type period limit
       as_reported].
Proof.
  intros Hr Hp.
  repeat (apply elem_of_cons in Hr as [->|Hr]); [..|by apply elem_of_nil in Hr];
    destruct as_reported;
    (erewrite get_financial_data_known;
     [rewrite fetched_requests; reflexivity | exact Hp | reflexivity
     | eexists; reflexivity | reflexivity]).
Qed.

(** C7.  For the full statement the as-reported flag changes nothing: the
    run with the flag set equals the run without it, and for a valid period
    the request goes to the one full-statement template. *)
Theorem full_statement_ignores_as_reported st symbol period limit :
  get_financial_data symbol "full_statement" period limit true st
  = get_financial_data symbol "full_statement" period limit false st
  /\ (period ∈ ["annual"; "quarter"] ->
      forall as_reported,
        requests_of
          (log (snd (get_financial_data symbol "full_statement" period limit
                       as_reported st)))
        = requests_of (log st) ++
          [statement_url (self st) "financial-statement-full-as-reported" symbol
             period limit]).
Proof.
  assert (Hrun : period ∈ ["annual"; "quarter"] -> forall as_reported,
    get_financial_data symbol "full_statement" period limit as_reported st
    = fetched (fun t => PyFrame (rename_0_info t)) (PyFrame empty_frame)
        (statement_url (self st) "financial-statement-full-as-reported" symbol
           period limit) st).
  { intros Hp as_reported.
    apply (get_financial_data_known _ _ _ _ _ _
             [statement_url (self st) "financial-statement-full-as-reported"
                symbol period limit]);
      [exact Hp | reflexivity | eexists; reflexivity |].
    destruct as_reported; reflexivity. }
  split.
  - destruct (decide (period ∈ ["annual"; "quarter"])) as [Hp|Hp].
    + rewrite !Hrun by exact Hp. reflexivity.
    + rewrite !get_financial_data_period by exact Hp. reflexivity.
  - intros Hp as_reported. rewrite Hrun by exact Hp. apply fetched_requests.
Qed.

Lemma rejects_intro msg sel tail options result s r :
  msg = "'" +:+ sel +:+ tail ->
  forallb (fun o => contains o tail) options = true ->
  r = (Ok result, logged (Print (PStr msg)) s) ->
  rejects msg options result s r.
Proof.
  intros -> Hopts ->. unfold rejects, logged. simpl.
  rewrite requests_of_app, app_nil_r.
  repeat split. apply options_mentioned. exact Hopts.
Qed.

(** C1, as the code has it.  A selector outside its supported set makes the
    method print a message that names every supported option and issue no
    request.  For [info_type], [report_type], [asset_type] and [market_type]
    the method returns the empty table; for [period] and [chart_type] it
    returns the integer 0. *)
Theorem invalid_selector_rejected st :
  (forall symbol limit info_type,
      info_type ∉ ["company_profile"; "company_rating"; "historical_rating";
                   "recommendations"] ->
      rejects (info_type_message info_type)
        ["company_profile"; "company_rating"; "historical_rating";
         "recommendations"]
        (PyFrame empty_frame) st
        (get_company_info symbol limit info_type st))
  /\ (forall symbol report_type period limit as_reported,
      period ∈ ["annual"; "quarter"] ->
      report_type ∉ ["balance_statement"; "income_statement";
                     "cashflow_statement"; "full_statement"] ->
      rejects (report_type_message report_type)
        ["balance_statement"; "income_statement"; "cashflow_statement";
         "full_statement"]
        (PyFrame empty_frame) st
        (get_financial_data symbol report_type period limit as_reported st))
  /\ (forall asset_type,
      asset_type ∉ ["forex"; "stock"; "commodities"; "crypto"] ->
      rejects (asset_type_message asset_type)
        ["forex"; "stock"; "commodities"; "crypto"]
        (PyFrame empty_frame) st
        (get_instruments asset_type st))
  /\ (forall market_type symbol limit,
      market_type ∉ ["stock"; "forex"; "crypto"] ->
      rejects (market_type_message market_type) ["stock"; "forex"; "crypto"]
        (PyFrame empty_frame) st
        (get_market_news market_type symbol limit st))
  /\ (forall symbol report_type period limit as_reported,
      period ∉ ["annual"; "quarter"] ->
      rejects (period_message period) ["annual"; "quarter"] (PyInt 0) st
        (get_financial_data symbol report_type period limit as_reported st))
  /\ (forall df start stop chart_type,
      chart_type ∉ ["candle"; "line"; "ohlc"] ->
      rejects (chart_type_message chart_type) ["candle"; "line"; "ohlc"]
        (PyInt 0) st
        (draw_chart df start stop chart_type st)).
Proof.
  refine (conj _ (conj _ (conj _ (conj _ (conj _ _))))); intros;
    (eapply rejects_intro; [reflexivity | reflexivity |]).
  - apply get_company_info_unknown, company_info_dict_unknown. assumption.
  - apply get_financial_data_unknown; [|apply report_type_dict_unknown]; assumption.
  - apply get_instruments_unknown, asset_type_dict_unknown. assumption.
  - apply get_market_news_unknown, market_type_dict_unknown. assumption.
  - apply get_financial_data_period. assumption.
  - apply draw_chart_unknown. assumption.
Qed.

(** ** The constructor *)

(** C6, as the code has it.  The constructor stores the credential and sends
    the probe.  A response with status 200, or any response whose body is
    JSON, is only printed and the client is produced; a failure of the request
    itself, and a body that is not JSON under another status, leave the
    constructor as an exception. *)
Theorem constructor_probe key st :
  let url := "https://financialmodelingprep.com/api/v3/profile/AAPL?apikey=" +:+ key in
  (forall body, remote st url = Response 200 body ->
     __init__ key st
     = (Ok tt, mkState (mkFmpConnector key) (remote st) (heap st)
                 (log st ++ [Request url; Print (PStr "Connected")])))
  /\ (forall code data, remote st url = Response code (Some data) -> code <> 200 ->
     __init__ key st
     = (Ok tt, mkState (mkFmpConnector key) (remote st) (heap st)
                 (log st ++ [Request url; Print (PJson data)])))
  /\ (remote st url = NetworkError ->
     fst (__init__ key st) = Raise ConnectionError)
  /\ (forall code, remote st url = Response code None -> code <> 200 ->
     fst (__init__ key st) = Raise JSONDecodeError).
Proof.
  intros url.
  change url with (host +:+ "/api/v3/profile/AAPL?apikey=" +:+ key). clear url.
  unfold __init__, set_self. run_monad.
  repeat split.
  - intros body ->. simpl. rewrite <- app_assoc. reflexivity.
  - intros code data -> Hc. simpl.
    apply Z.eqb_neq in Hc. rewrite Hc. simpl. rewrite <- app_assoc. reflexivity.
  - intros ->. reflexivity.
  - intros code -> Hc. simpl. apply Z.eqb_neq in Hc. rewrite Hc. reflexivity.
Qed.

(** ** Daily prices *)

(** C5.  On the response with the single observation of 2023-01-03,
    [get_daily_prices("AAPL")] issues its one request and returns a table of
    one row whose row label is the parsed day, in which [date] is no longer a
    column, and whose [attrs] carry the instrument. *)
Theorem get_daily_prices_single_row st code :
  let url := "https://financialmodelingprep.com/api/v3/historical-price-full/AAPL?apikey="
             +:+ apikey (self st) in
  remote st url = Response code (Some aapl_response) ->
  get_daily_prices "AAPL" st = (Ok (PyFrame aapl_table), logged (Request url) st)
  /\ index aapl_table = [LTime (Some (Date 2023 1 3))]
  /\ length (values aapl_table) = 1%nat
  /\ column_pos "date" (columns aapl_table) = None
  /\ attrs aapl_table !! "instrument" = Some "AAPL".
Proof.
  intros url Hr. split; [|repeat split; reflexivity].
  subst url.
  change (remote st (host +:+ "/api/v3/historical-price-full/" +:+ "AAPL" +:+
                     "?apikey=" +:+ apikey (self st))
          = Response code (Some aapl_response)) in Hr.
  unfold get_daily_prices. run_monad. rewrite Hr. reflexivity.
Qed.

(** *** Responses that the library refuses *)

Lemma get_sentiment_unreadable st symbol limit code data :
  let url := host +:+ "/api/v4/historical/social-sentiment?symbol=" +:+ symbol +:+
             "&limit=" +:+ fmt_int limit +:+ "&apikey=" +:+ apikey (self st) in
  remote st url = Response code (Some data) ->
  from_dict data = Raise ValueError ->
  get_sentiment symbol limit st
  = (Ok (PyFrame empty_frame),
     logged (Print (PJson data)) (logged (Request url) st)).
Proof.
  intros url Hr Hv. rewrite get_sentiment_run. fold url.
  unfold fetched, tabulated. rewrite Hr, Hv. reflexivity.
Qed.

Lemma get_instruments_unreadable st asset_type url code data :
  asset_type_dict (self st) !! asset_type = Some url ->
  remote st url = Response code (Some data) ->
  from_dict data = Raise ValueError ->
  get_instruments asset_type st
  = (Ok PyDataFrameClass, logged (Print (PJson data)) (logged (Request url) st)).
Proof.
  intros Hd Hr Hv. rewrite (get_instruments_known _ _ _ Hd).
  unfold fetched, tabulated. rewrite Hr, Hv. reflexivity.
Qed.

(** Whatever the response, [get_daily_prices] does not come back from the
    handler of line 224 with a table: the empty table has no [date] column. *)
Lemma get_daily_prices_unreadable st symbol code members historical :
  let url := host +:+ "/api/v3/historical-price-full/" +:+ symbol +:+ "?apikey=" +:+
             apikey (self st) in
  remote st url = Response code (Some (JObj members)) ->
  assoc "historical" members = Some historical ->
  from_dict historical = Raise ValueError ->
  get_daily_prices symbol st
  = (Raise KeyError,
     logged (Print (PJson (JObj members))) (logged (Request url) st)).
Proof.
  intros url Hr Ha Hv. subst url.
  unfold get_daily_prices, json_getitem. run_monad.
  rewrite Hr. cbn. rewrite Ha. cbn. rewrite Hv. reflexivity.
Qed.

Lemma get_daily_prices_no_history st symbol code members :
  let url := host +:+ "/api/v3/historical-price-full/" +:+ symbol +:+ "?apikey=" +:+
             apikey (self st) in
  remote st url = Response code (Some (JObj members)) ->
  assoc "historical" members = None ->
  get_daily_prices symbol st = (Raise KeyError, logged (Request url) st).
Proof.
  intros url Hr Ha. subst url.
  unfold get_daily_prices, json_getitem. run_monad.
  rewrite Hr. cbn. rewrite Ha. reflexivity.
Qed.

(** C3 at its failing inputs.  On the body that the service sends when it
    refuses a request, [get_daily_prices] leaves with [KeyError], and
    [get_instruments] and [get_market_news] return the class [pd.DataFrame];
    [get_daily_prices] leaves with [KeyError] also after the handler of the
    unreadable ["historical"] member has printed the response.
    [get_sentiment] on the same body prints it and returns the empty table. *)
Theorem unparseable_response_runs key tables trail :
  let refused := mkState (mkFmpConnector key) (answering 200 (Some error_body))
                   tables trail in
  let odd := mkState (mkFmpConnector key) (answering 200 (Some odd_history))
               tables trail in
  let prices_url :=
    "https://financialmodelingprep.com/api/v3/historical-price-full/AAPL?apikey="
    +:+ key in
  let sentiment_url :=
    "https://financialmodelingprep.com/api/v4/historical/social-sentiment?symbol=AAPL&limit=10&apikey="
    +:+ key in
  get_daily_prices "AAPL" refused
  = (Raise KeyError, logged (Request prices_url) refused)
  /\ get_daily_prices "AAPL" odd
     = (Raise KeyError,
        logged (Print (PJson odd_history)) (logged (Request prices_url) odd))
  /\ fst (get_instruments "stock" refused) = Ok PyDataFrameClass
  /\ fst (get_market_news "stock" None 10 refused) = Ok PyDataFrameClass
  /\ get_sentiment "AAPL" 10 refused
     = (Ok (PyFrame empty_frame),
        logged (Print (PJson error_body)) (logged (Request sentiment_url) refused)).
Proof.
  intros refused odd prices_url sentiment_url.
  repeat apply conj; reflexivity.
Qed.

(** ** Outcomes depend on the client and the responses only *)

Lemma agree_logged ev s1 s2 : agree s1 s2 -> agree (logged ev s1) (logged ev s2).
Proof. intros Ha. exact Ha. Qed.

Lemma det_ret {A} (a : A) : deterministic (ret a).
Proof. intros s1 s2 Ha. split; [reflexivity | exact Ha]. Qed.

Lemma det_raise {A} (e : exn) : deterministic (@raise A e).
Proof. intros s1 s2 Ha. split; [reflexivity | exact Ha]. Qed.

Lemma det_lift {A} (o : outcome A) : deterministic (lift o).
Proof. intros s1 s2 Ha. split; [reflexivity | exact Ha]. Qed.

Lemma det_emit ev : deterministic (emit ev).
Proof. intros s1 s2 Ha. split; [reflexivity | exact Ha]. Qed.

Lemma det_bind {A B} (m : M A) (k : A -> M B) :
  deterministic m -> (forall a, deterministic (k a)) -> deterministic (bind m k).
Proof.
  intros Hm Hk s1 s2 Ha. unfold bind.
  destruct (Hm s1 s2 Ha) as [Ho Hs].
  destruct (m s1) as [[a1|e1] t1], (m s2) as [[a2|e2] t2]; simpl in *;
    try discriminate.
  - injection Ho as ->. apply Hk. exact Hs.
  - injection Ho as ->. split; [reflexivity | exact Hs].
Qed.

Lemma det_try_except {A} (body handler : M A) (catch : exn -> bool) :
  deterministic body -> deterministic handler ->
  deterministic (try_except body catch handler).
Proof.
  intros Hb Hh s1 s2 Ha. unfold try_except.
  destruct (Hb s1 s2 Ha) as [Ho Hs].
  destruct (body s1) as [[a1|e1] t1], (body s2) as [[a2|e2] t2]; simpl in *;
    try discriminate.
  - split; assumption.
  - injection Ho as ->. destruct (catch e2); [apply Hh; exact Hs|].
    split; [reflexivity | exact Hs].
Qed.

Lemma det_get_self_bind {B} (k : FmpConnector -> M B) :
  (forall c, deterministic (k c)) -> deterministic (bind get_self k).
Proof.
  intros Hk s1 s2 Ha. unfold bind, get_self.
  destruct Ha as [Hself Hrem]. rewrite Hself. apply Hk. split; assumption.
Qed.

Lemma det_requests_get url : deterministic (requests_get url).
Proof.
  intros s1 s2 [Hself Hrem]. unfold requests_get. rewrite (Hrem url).
  destruct (remote s2 url); simpl; (split; [reflexivity | split; assumption]).
Qed.

Lemma det_response_json r : deterministic (response_json r).
Proof. unfold response_json. destruct (snd r); [apply det_ret | apply det_raise]. Qed.

Lemma det_dict_getitem {V} (d : gmap string V) k : deterministic (dict_getitem d k).
Proof. unfold dict_getitem. destruct (d !! k); [apply det_ret | apply det_raise]. Qed.

Lemma det_list_getitem {V} (l : list V) i : deterministic (list_getitem l i).
Proof. unfold list_getitem. destruct (l !! i); [apply det_ret | apply det_raise]. Qed.

Lemma det_json_getitem data k : deterministic (json_getitem data k).
Proof.
  unfold json_getitem. destruct data; try apply det_raise.
  destruct (assoc k members); [apply det_ret | apply det_raise].
Qed.

(** Follows the shape of a method body. *)
Ltac det_step :=
  first
    [ apply det_get_self_bind; intros ?
    | apply det_bind; [|intros ?]
    | apply det_try_except
    | apply det_ret | apply det_raise | apply det_lift | apply det_emit
    | apply det_requests_get | apply det_response_json
    | apply det_dict_getitem | apply det_list_getitem | apply det_json_getitem
    | match goal with
      | |- deterministic (if ?b then _ else _) => destruct b
      | |- deterministic (match ?x with _ => _ end) => destruct x
      end ].

Lemma det_perform c : is_fetch c = true -> deterministic (perform c).
Proof.
  destruct c; simpl; intros Hf; try discriminate;
    [ unfold get_company_info | unfold get_financial_data | unfold get_instruments
    | unfold get_daily_prices | unfold get_market_news | unfold get_sentiment ];
    unfold print; cbv zeta; repeat det_step.
Qed.

(** C9.  A fetch method called with the same arguments on the same client,
    against a service that gives the same responses, has the same outcome:
    the same table, or the same exception.  The two calls may start from
    different traces and different stores. *)
Theorem fetch_deterministic c s1 s2 :
  is_fetch c = true ->
  self s1 = self s2 ->
  (forall url, remote s1 url = remote s2 url) ->
  fst (perform c s1) = fst (perform c s2).
Proof.
  intros Hf Hself Hrem. apply (det_perform c Hf). split; assumption.
Qed.

(** ** What the methods leave unchanged *)

Lemma carries_intro (front key : string) :
  carries_apikey key (front +:+ "apikey=" +:+ key).
Proof. exists front. reflexivity. Qed.

Lemma carries_after (front key url : string) :
  carries_apikey key url -> carries_apikey key (front +:+ url).
Proof.
  intros [a ->]. exists (front +:+ a). rewrite append_assoc. reflexivity.
Qed.

(** Finds the credential at the end of a URL built by appending. *)
Ltac carries :=
  first
    [ match goal with
      | |- carries_apikey _ (?lit +:+ _) =>
          exists (substring 0 (String.length lit - 7)%nat lit); reflexivity
      end
    | apply carries_after; carries ].

Lemma extends_refl key s : extends key s s.
Proof.
  repeat split; try reflexivity.
  - exists []. rewrite app_nil_r. reflexivity.
  - exists []. rewrite app_nil_r. split; [reflexivity | constructor].
Qed.

Lemma extends_trans key s1 s2 s3 :
  extends key s1 s2 -> extends key s2 s3 -> extends key s1 s3.
Proof.
  intros (Hs1 & Hr1 & [f1 Hh1] & [n1 [Hl1 Hn1]])
         (Hs2 & Hr2 & [f2 Hh2] & [n2 [Hl2 Hn2]]).
  repeat split; try congruence.
  - exists (f1 ++ f2). rewrite Hh2, Hh1, app_assoc. reflexivity.
  - exists (n1 ++ n2). split.
    + rewrite Hl2, Hl1, app_assoc. reflexivity.
    + apply Forall_app. split; assumption.
Qed.

Lemma extends_logged key ev s : event_ok key ev -> extends key s (logged ev s).
Proof.
  intros Hev. repeat split; cbn.
  - exists []. rewrite app_nil_r. reflexivity.
  - exists [ev]. split; [reflexivity|]. constructor; [exact Hev | constructor].
Qed.

Lemma keeps_weaken key {A} (m : M A) (P Q : A -> Prop) :
  keeps key m P -> (forall a, P a -> Q a) -> keeps key m Q.
Proof.
  intros Hm HPQ s Hk. destruct (Hm s Hk) as [He Hp].
  split; [exact He|]. intros a Ha. apply HPQ, Hp, Ha.
Qed.

Lemma keeps_ret key {A} (a : A) (Q : A -> Prop) : Q a -> keeps key (ret a) Q.
Proof.
  intros Hq s Hk. split; [apply extends_refl|].
  intros b Hb. injection Hb as <-. exact Hq.
Qed.

Lemma keeps_raise key {A} (e : exn) (Q : A -> Prop) : keeps key (raise e) Q.
Proof. intros s Hk. split; [apply extends_refl|]. intros b Hb. discriminate. Qed.

Lemma keeps_lift key {A} (o : outcome A) : keeps key (lift o) (fun _ => True).
Proof. intros s Hk. split; [apply extends_refl|]. intros; exact I. Qed.

Lemma keeps_emit key ev : event_ok key ev -> keeps key (emit ev) (fun _ => True).
Proof.
  intros Hev s Hk. split; [apply (extends_logged key ev s Hev)|]. intros; exact I.
Qed.

Lemma keeps_bind key {A B} (P : A -> Prop) (m : M A) (k : A -> M B)
    (Q : B -> Prop) :
  keeps key m P -> (forall a, P a -> keeps key (k a) Q) -> keeps key (bind m k) Q.
Proof.
  intros Hm Hk s Hs. unfold bind.
  destruct (Hm s Hs) as [He Hp].
  destruct (m s) as [[a|e] t]; simpl in *.
  - assert (Ht : apikey (self t) = key).
    { destruct He as [Hself _]. rewrite Hself. exact Hs. }
    destruct (Hk a (Hp a eq_refl) t Ht) as [He' Hq].
    split; [exact (extends_trans _ _ _ _ He He') | exact Hq].
  - split; [exact He|]. intros b Hb. discriminate.
Qed.

Lemma keeps_try_except key {A} (body handler : M A) (catch : exn -> bool)
    (Q : A -> Prop) :
  keeps key body Q -> keeps key handler Q ->
  keeps key (try_except body catch handler) Q.
Proof.
  intros Hb Hh s Hs. unfold try_except.
  destruct (Hb s Hs) as [He Hp].
  destruct (body s) as [[a|e] t]; simpl in *.
  - split; assumption.
  - destruct (catch e).
    + assert (Ht : apikey (self t) = key).
      { destruct He as [Hself _]. rewrite Hself. exact Hs. }
      destruct (Hh t Ht) as [He' Hq].
      split; [exact (extends_trans _ _ _ _ He He') | exact Hq].
    + split; [exact He|]. intros b Hx. discriminate.
Qed.

Lemma keeps_get_self key : keeps key get_self (fun c => apikey c = key).
Proof.
  intros s Hs. split; [apply extends_refl|].
  intros c Hc. injection Hc as <-. exact Hs.
Qed.

Lemma keeps_requests_get key url :
  carries_apikey key url -> keeps key (requests_get url) (fun _ => True).
Proof.
  intros Hc s Hs. split; [|intros; exact I].
  unfold requests_get.
  destruct (remote s url); apply (extends_logged key (Request url) s Hc).
Qed.

Lemma keeps_response_json key r : keeps key (response_json r) (fun _ => True).
Proof.
  unfold response_json. destruct (snd r); [apply keeps_ret; exact I|apply keeps_raise].
Qed.

Lemma keeps_dict_getitem key {V} (d : gmap string V) (k : string) (Q : V -> Prop) :
  map_Forall (fun _ v => Q v) d -> keeps key (dict_getitem d k) Q.
Proof.
  intros Hd. unfold dict_getitem. destruct (d !! k) as [v|] eqn:Hl.
  - apply keeps_ret. exact (Hd k v Hl).
  - apply keeps_raise.
Qed.

Lemma keeps_list_getitem key {V} (l : list V) (i : nat) (Q : V -> Prop) :
  Forall Q l -> keeps key (list_getitem l i) Q.
Proof.
  intros Hl. unfold list_getitem. destruct (l !! i) as [v|] eqn:Hi.
  - apply keeps_ret. exact (proj1 (Forall_lookup Q l) Hl i v Hi).
  - apply keeps_raise.
Qed.

Lemma keeps_json_getitem key data k : keeps key (json_getitem data k) (fun _ => True).
Proof.
  unfold json_getitem. destruct data; try apply keeps_raise.
  destruct (assoc k members); [apply keeps_ret; exact I | apply keeps_raise].
Qed.

Lemma keeps_list_last key {V} (l : list V) : keeps key (list_last l) (fun _ => True).
Proof.
  unfold list_last. destruct (last l); [apply keeps_ret; exact I | apply keeps_raise].
Qed.

Lemma keeps_load key r : keeps key (load r) (fun _ => True).
Proof.
  intros s Hs. split; [|intros; exact I].
  unfold load. destruct (heap s !! r); apply extends_refl.
Qed.

Lemma keeps_alloc key df : keeps key (alloc df) (fun _ => True).
Proof.
  intros s Hs. split; [|intros; exact I].
  unfold alloc. repeat split; cbn.
  - exists [df]. reflexivity.
  - exists []. rewrite app_nil_r. split; [reflexivity | constructor].
Qed.

Lemma keeps_dict_getitem_any key {V} (d : gmap string V) (k : string) :
  keeps key (dict_getitem d k) (fun _ => True).
Proof. apply keeps_dict_getitem. intros ? ? ?. exact I. Qed.

Lemma keeps_list_getitem_any key {V} (l : list V) (i : nat) :
  keeps key (list_getitem l i) (fun _ => True).
Proof. apply keeps_list_getitem, Forall_forall. intros; exact I. Qed.

(** Closes the parts of a method body that pass no URL along. *)
Ltac keeps_plain :=
  repeat first
    [ apply keeps_ret; exact I
    | apply keeps_raise
    | apply keeps_lift
    | apply keeps_emit; exact I
    | apply keeps_response_json
    | apply keeps_json_getitem
    | apply keeps_load
    | apply keeps_alloc
    | apply keeps_list_last
    | apply keeps_dict_getitem_any
    | apply keeps_list_getitem_any
    | apply keeps_requests_get; assumption
    | apply keeps_try_except
    | apply (keeps_bind _ (fun _ => True)); [|intros ? _]
    | match goal with
      | |- keeps _ (if ?b then _ else _) _ => destruct b
      | |- keeps _ (match ?x with _ => _ end) _ => destruct x
      end ].

(** Splits the membership of a pair in a dictionary literal into its entries. *)
Ltac dict_entries H :=
  apply elem_of_list_to_map_2 in H;
  repeat (apply elem_of_cons in H as [H|H]; [injection H as -> ->|]);
  [..|by apply elem_of_nil in H].

Lemma company_info_dict_carries c symbol limit :
  map_Forall (fun _ url => carries_apikey (apikey c) url)
    (company_info_dict c symbol limit).
Proof. intros k url Hl. dict_entries Hl; carries. Qed.

Lemma statement_url_carries c path symbol period limit :
  carries_apikey (apikey c) (statement_url c path symbol period limit).
Proof. unfold statement_url. carries. Qed.

Lemma report_type_dict_carries c symbol period limit :
  map_Forall (fun _ entry => Forall (carries_apikey (apikey c)) entry)
    (report_type_dict c symbol period limit).
Proof.
  intros k entry Hl.
  dict_entries Hl; repeat constructor; apply statement_url_carries.
Qed.

Lemma asset_type_dict_carries c :
  map_Forall (fun _ url => carries_apikey (apikey c) url) (asset_type_dict c).
Proof. intros k url Hl. dict_entries Hl; carries. Qed.

Lemma news_url_carries c path filter limit :
  carries_apikey (apikey c) (news_url c path filter limit).
Proof. unfold news_url. carries. Qed.

Lemma market_type_dict_carries c symbol limit :
  map_Forall (fun _ entry => Forall (carries_apikey (apikey c)) entry)
    (market_type_dict c symbol limit).
Proof.
  intros k entry Hl.
  dict_entries Hl; repeat constructor; apply news_url_carries.
Qed.

Lemma get_company_info_keeps key symbol limit info_type :
  keeps key (get_company_info symbol limit info_type) (fun _ => True).
Proof.
  unfold get_company_info, print.
  apply (keeps_bind _ _ _ _ _ (keeps_get_self key)). intros c <-. cbv zeta.
  apply (keeps_bind _ (fun _ => True)); [|intros data _; keeps_plain].
  apply keeps_try_except; [|keeps_plain].
  apply (keeps_bind _ (carries_apikey (apikey c)));
    [apply keeps_dict_getitem, company_info_dict_carries|].
  intros url Hu. keeps_plain.
Qed.

Lemma get_financial_data_keeps key symbol report_type period limit as_reported :
  keeps key (get_financial_data symbol report_type period limit as_reported)
    (fun _ => True).
Proof.
  unfold get_financial_data, print.
  apply (keeps_bind _ _ _ _ _ (keeps_get_self key)). intros c <-. cbv zeta.
  destruct (negb (bool_decide (period ∈ ["annual"; "quarter"]))); [keeps_plain|].
  apply (keeps_bind _ (fun _ => True)); [|intros data _; keeps_plain].
  apply keeps_try_except; [|keeps_plain].
  apply (keeps_bind _ (Forall (carries_apikey (apikey c))));
    [apply keeps_dict_getitem, report_type_dict_carries|].
  intros entry He.
  apply (keeps_bind _ (carries_apikey (apikey c)));
    [apply keeps_list_getitem, He|].
  intros url Hu.
  apply (keeps_bind _ (carries_apikey (apikey c))); [|intros url' Hu'; keeps_plain].
  destruct (as_reported && negb (bool_decide (report_type = "full_statement")));
    [|apply keeps_ret, Hu].
  apply (keeps_bind _ (Forall (carries_apikey (apikey c))));
    [apply keeps_dict_getitem, report_type_dict_carries|].
  intros entry' He'. apply keeps_list_getitem, He'.
Qed.

Lemma get_instruments_keeps key asset_type :
  keeps key (get_instruments asset_type) (fun _ => True).
Proof.
  unfold get_instruments, print.
  apply (keeps_bind _ _ _ _ _ (keeps_get_self key)). intros c <-. cbv zeta.
  apply (keeps_bind _ (fun _ => True)); [|intros data _; keeps_plain].
  apply keeps_try_except; [|keeps_plain].
  apply (keeps_bind _ (carries_apikey (apikey c)));
    [apply keeps_dict_getitem, asset_type_dict_carries|].
  intros url Hu. keeps_plain.
Qed.

Lemma get_daily_prices_keeps key symbol :
  keeps key (get_daily_prices symbol) (fun _ => True).
Proof.
  unfold get_daily_prices, print.
  apply (keeps_bind _ _ _ _ _ (keeps_get_self key)). intros c <-. cbv zeta.
  apply (keeps_bind _ (fun _ => True)); [|intros r _; keeps_plain].
  apply keeps_requests_get. carries.
Qed.

Lemma get_market_news_keeps key market_type symbol limit :
  keeps key (get_market_news market_type symbol limit) (fun _ => True).
Proof.
  unfold get_market_news, print.
  apply (keeps_bind _ _ _ _ _ (keeps_get_self key)). intros c <-. cbv zeta.
  apply (keeps_bind _ (fun _ => True)); [|intros data _; keeps_plain].
  apply keeps_try_except; [|keeps_plain].
  apply (keeps_bind _ (Forall (carries_apikey (apikey c))));
    [apply keeps_dict_getitem, market_type_dict_carries|].
  intros entry He.
  apply (keeps_bind _ (carries_apikey (apikey c)));
    [apply keeps_list_getitem, He|].
  intros url Hu.
  apply (keeps_bind _ (carries_apikey (apikey c))); [|intros url' Hu'; keeps_plain].
  destruct symbol as [sym|]; [|apply keeps_ret, Hu].
  apply (keeps_bind _ (Forall (carries_apikey (apikey c))));
    [apply keeps_dict_getitem, market_type_dict_carries|].
  intros entry' He'. apply keeps_list_getitem, He'.
Qed.

Lemma get_sentiment_keeps key symbol limit :
  keeps key (get_sentiment symbol limit) (fun _ => True).
Proof.
  unfold get_sentiment, print.
  apply (keeps_bind _ _ _ _ _ (keeps_get_self key)). intros c <-. cbv zeta.
  apply (keeps_bind _ (fun _ => True)); [|intros r _; keeps_plain].
  apply keeps_requests_get. carries.
Qed.

Lemma draw_chart_keeps key df start stop chart_type :
  keeps key (draw_chart df start stop chart_type) (fun _ => True).
Proof.
  unfold draw_chart, select_window, price_trace, print.
  keeps_plain.
Qed.

Lemma perform_keeps key c : keeps key (perform c) (fun _ => True).
Proof.
  destruct c; simpl.
  - apply get_company_info_keeps.
  - apply get_financial_data_keeps.
  - apply get_instruments_keeps.
  - apply get_daily_prices_keeps.
  - apply get_market_news_keeps.
  - apply get_sentiment_keeps.
  - apply draw_chart_keeps.
Qed.

Lemma event_ok_requests key new :
  Forall (event_ok key) new -> Forall (carries_apikey key) (requests_of new).
Proof.
  induction 1 as [|ev new Hev _ IH]; simpl; [constructor|].
  destruct ev; simpl in *; [constructor; assumption | assumption | assumption].
Qed.

Lemma run_extends key calls s :
  apikey (self s) = key -> extends key s (run calls s).
Proof.
  revert s. induction calls as [|c calls IH]; intros s Hs.
  - apply extends_refl.
  - change (run (c :: calls) s) with (run calls (snd (perform c s))).
    destruct (perform_keeps key c s Hs) as [He _].
    apply (extends_trans _ _ _ _ He). apply IH.
    destruct He as [Hself _]. rewrite Hself. exact Hs.
Qed.

Lemma init_extends key st :
  self (snd (__init__ key st)) = mkFmpConnector key
  /\ exists new, log (snd (__init__ key st)) = log st ++ new
                 /\ Forall (event_ok key) new.
Proof.
  assert (Hc : carries_apikey key (host +:+ "/api/v3/profile/AAPL?apikey=" +:+ key))
    by carries.
  unfold __init__, set_self. run_monad.
  destruct (remote st _) as [|code [data|]]; simpl.
  - split; [reflexivity|]. eexists. split; [reflexivity|]. repeat constructor. exact Hc.
  - destruct (code =? 200); simpl; (split; [reflexivity|]);
      rewrite <- app_assoc; eexists; (split; [reflexivity|]);
      repeat constructor; exact Hc.
  - destruct (code =? 200); simpl; (split; [reflexivity|]);
      rewrite <- ?app_assoc; eexists; (split; [reflexivity|]);
      repeat constructor; exact Hc.
Qed.

(** C8.  The constructor stores the credential it is given, and no method
    call changes it: after any sequence of calls the client still holds it.
    Every request sent by the constructor's probe and by the calls ends with
    [apikey=] followed by that credential, and so does every URL in the
    template dictionaries of the methods. *)
Theorem credential_on_every_request key st calls :
  let born := snd (__init__ key st) in
  let final := run calls born in
  self born = mkFmpConnector key
  /\ self final = mkFmpConnector key
  /\ (exists new, log final = log st ++ new
                  /\ Forall (carries_apikey key) (requests_of new))
  /\ (forall symbol limit,
        map_Forall (fun _ url => carries_apikey key url)
          (company_info_dict (self final) symbol limit))
  /\ (forall symbol period limit,
        map_Forall (fun _ entry => Forall (carries_apikey key) entry)
          (report_type_dict (self final) symbol period limit))
  /\ map_Forall (fun _ url => carries_apikey key url) (asset_type_dict (self final))
  /\ (forall symbol limit,
        map_Forall (fun _ entry => Forall (carries_apikey key) entry)
          (market_type_dict (self final) symbol limit)).
Proof.
  intros born final.
  destruct (init_extends key st) as [Hborn [new0 [Hlog0 Hok0]]].
  fold born in Hborn, Hlog0.
  assert (Hk : apikey (self born) = key) by (rewrite Hborn; reflexivity).
  destruct (run_extends key calls born Hk) as (Hself & _ & _ & [new1 [Hlog1 Hok1]]).
  fold final in Hself, Hlog1.
  assert (Hfinal : self final = mkFmpConnector key) by congruence.
  split; [exact Hborn|]. split; [exact Hfinal|]. split.
  { exists (new0 ++ new1). split.
    - rewrite Hlog1, Hlog0, app_assoc. reflexivity.
    - apply event_ok_requests, Forall_app. split; assumption. }
  rewrite Hfinal.
  repeat split; intros.
  - apply (company_info_dict_carries (mkFmpConnector key)).
  - apply (report_type_dict_carries (mkFmpConnector key)).
  - apply (asset_type_dict_carries (mkFmpConnector key)).
  - apply (market_type_dict_carries (mkFmpConnector key)).
Qed.

(** C10.  [draw_chart] changes no table of the store: after the call every
    table is where it was and as it was, the caller's table among them; the
    call adds at most the table object of the displayed window. *)
Theorem draw_chart_leaves_tables st df start stop chart_type :
  let st' := snd (draw_chart df start stop chart_type st) in
  (exists fresh, heap st' = heap st ++ fresh)
  /\ (forall r table, heap st !! r = Some table -> heap st' !! r = Some table).
Proof.
  intros st'.
  destruct (draw_chart_keeps (apikey (self st)) df start stop chart_type st eq_refl)
    as [(_ & _ & [fresh Hh] & _) _].
  fold st' in Hh. split; [exists fresh; exact Hh|].
  intros r table Hr. rewrite Hh. apply lookup_app_l_Some. exact Hr.
Qed.

(** ** The displayed window *)

Lemma date_leb_trans a b c :
  date_leb a b = true -> date_leb b c = true -> date_leb a c = true.
Proof. unfold date_leb. rewrite !Z.leb_le. lia. Qed.

Lemma monotonic_cons d ds :
  monotonic_increasing (d :: ds) = true ->
  Forall (fun x => date_leb d x = true) ds /\ monotonic_increasing ds = true.
Proof.
  revert d. induction ds as [|e ds IH]; intros d Hm.
  - split; [constructor | reflexivity].
  - change (date_leb d e && monotonic_increasing (e :: ds) = true) in Hm.
    apply andb_true_iff in Hm as [Hde Hm].
    split; [|exact Hm].
    destruct (IH e Hm) as [Hall _].
    constructor; [exact Hde|].
    eapply Forall_impl; [exact Hall|].
    intros x Hx. exact (date_leb_trans _ _ _ Hde Hx).
Qed.

Lemma select_none {A} (p : date -> bool) ds (xs : list A) :
  Forall (fun x => p x = false) ds -> select p ds xs = [].
Proof.
  intros Hall. revert xs. induction Hall as [|d ds Hd _ IH]; intros xs.
  - reflexivity.
  - destruct xs as [|x xs]; simpl; [reflexivity|]. rewrite Hd. apply IH.
Qed.


Lemma searchsorted_none p ds :
  Forall (fun x => p x = false) ds -> searchsorted p ds = 0%nat.
Proof. intros Hall. destruct Hall as [|d ds Hd _]; simpl; [|rewrite Hd]; reflexivity. Qed.

Lemma searchsorted_all p ds :
  Forall (fun x => p x = true) ds -> searchsorted p ds = length ds.
Proof.
  induction 1 as [|d ds Hd _ IH]; simpl; [reflexivity|]. rewrite Hd, IH. reflexivity.
Qed.

Lemma downward_rest p d ds :
  downward p -> p d = false -> Forall (fun x => date_leb d x = true) ds ->
  Forall (fun x => p x = false) ds.
Proof.
  intros Hp Hd Hall. eapply Forall_impl; [exact Hall|].
  intros x Hx. destruct (p x) eqn:Hpx; [|reflexivity].
  rewrite (Hp d x Hx Hpx) in Hd. discriminate.
Qed.

(** On an increasing index, slicing between the two insertion points keeps
    the entries that pass the upper test and fail the lower one. *)
Lemma slice_select {A} (p q : date -> bool) ds (xs : list A) :
  monotonic_increasing ds = true -> downward p -> downward q ->
  take (searchsorted q ds - searchsorted p ds)%nat (drop (searchsorted p ds) xs)
  = select (fun d => negb (p d) && q d) ds xs.
Proof.
  intros Hm Hp Hq. revert xs Hm.
  induction ds as [|d ds IH]; intros xs Hm.
  - simpl. destruct xs; reflexivity.
  - apply monotonic_cons in Hm as [Hall Hm].
    destruct xs as [|x xs].
    + simpl. rewrite drop_nil, take_nil. reflexivity.
    + simpl. destruct (p d) eqn:Hpd, (q d) eqn:Hqd; simpl.
      * apply IH. exact Hm.
      * symmetry. apply select_none.
        eapply Forall_impl; [exact (downward_rest q d ds Hq Hqd Hall)|].
        intros y Hy. simpl. rewrite Hy. apply andb_false_r.
      * rewrite <- (IH xs Hm).
        rewrite (searchsorted_none p ds (downward_rest p d ds Hp Hpd Hall)).
        rewrite Nat.sub_0_r. reflexivity.
      * symmetry. apply select_none.
        eapply Forall_impl; [exact (downward_rest q d ds Hq Hqd Hall)|].
        intros y Hy. simpl. rewrite Hy. apply andb_false_r.
Qed.

Lemma timestamps_of_days ds :
  timestamps (map (fun d => LTime (Some d)) ds) = Some ds.
Proof.
  unfold timestamps. induction ds as [|d ds IH]; [reflexivity|].
  cbn. cbn in IH. rewrite IH. reflexivity.
Qed.

Lemma downward_before d : downward (fun x => date_ltb x d).
Proof.
  intros a b. unfold date_leb, date_ltb. rewrite Z.leb_le, !Z.ltb_lt. lia.
Qed.

Lemma downward_upto d : downward (fun x => date_leb x d).
Proof. intros a b Hab Hb. exact (date_leb_trans _ _ _ Hab Hb). Qed.

Lemma downward_const b : downward (fun _ => b).
Proof. intros x y _ Hb. exact Hb. Qed.

(** The library's slice and the specification's window are the same table. *)
Lemma loc_window table ds start stop lo hi :
  index table = map (fun d => LTime (Some d)) ds ->
  monotonic_increasing ds = true ->
  bound start = Some lo ->
  bound stop = Some hi ->
  loc table start stop = Ok (spec_window table ds lo hi).
Proof.
  intros Hidx Hm Hlo Hhi. unfold loc.
  rewrite Hidx, timestamps_of_days, Hlo, Hhi, Hm.
  set (p := fun x => match lo with Some d => date_ltb x d | None => false end).
  set (q := fun x => match hi with Some d => date_leb x d | None => true end).
  assert (Hp : downward p).
  { unfold p. destruct lo; [apply downward_before | apply downward_const]. }
  assert (Hq : downward q).
  { unfold q. destruct hi; [apply downward_upto | apply downward_const]. }
  assert (Hi : match lo with
               | Some d => searchsorted (fun x => date_ltb x d) ds
               | None => 0%nat
               end = searchsorted p ds).
  { unfold p. destruct lo; [reflexivity|].
    symmetry. apply searchsorted_none, Forall_forall. reflexivity. }
  assert (Hj : match hi with
               | Some d => searchsorted (fun x => date_leb x d) ds
               | None => length ds
               end = searchsorted q ds).
  { unfold q. destruct hi; [reflexivity|].
    symmetry. apply searchsorted_all, Forall_forall. reflexivity. }
  assert (Hw : forall {A} (xs : list A),
             select (fun d => negb (p d) && q d) ds xs
             = select (in_window lo hi) ds xs).
  { intros A xs. clear. revert xs.
    induction ds as [|d ds IH]; intros xs; [reflexivity|].
    destruct xs as [|x xs]; [reflexivity|]. simpl. rewrite IH.
    replace (negb (p d) && q d) with (in_window lo hi d); [reflexivity|].
    unfold in_window, p, q, date_leb, date_ltb.
    destruct lo, hi; rewrite ?Z.leb_antisym; reflexivity. }
  rewrite Hi, Hj. unfold iloc, spec_window.
  rewrite !(slice_select p q ds _ Hm Hp Hq), !Hw. reflexivity.
Qed.



Lemma has_columns_getitem df names n :
  has_columns df names = true -> n ∈ names ->
  exists col, getitem df n = Ok col.
Proof.
  intros Hall Hn. unfold has_columns in Hall. rewrite forallb_forall in Hall.
  specialize (Hall n (proj1 (list_elem_of_In _ _) Hn)).
  apply bool_decide_eq_true in Hall as [i Hi].
  unfold getitem. rewrite Hi. eexists. reflexivity.
Qed.


(** *** An index that is not increasing *)



End Client.

(** ** The model on concrete inputs *)

Example parse_date_example : parse_date "2023-01-03" = Some (Date 2023 1 3).
Proof. reflexivity. Qed.

Example parse_date_rejects : parse_date "2023-02-30" = None.
Proof. reflexivity. Qed.

Example company_info_urls :
  requests_of (log (snd (get_company_info (lib := pandas_refusing)
                           "AAPL" 10 "historical_rating" (demo_state offline []))))
  = ["https://financialmodelingprep.com/api/v3/historical-rating/AAPL?limit=10&apikey=demo"].
Proof. vm_compute. reflexivity. Qed.

Example instruments_url :
  requests_of (log (snd (get_instruments (lib := pandas_refusing)
                           "crypto" (demo_state offline []))))
  = ["https://financialmodelingprep.com/api/v3/symbol/available-cryptocurrencies?apikey=demo"].
Proof. vm_compute. reflexivity. Qed.

Example market_news_urls :
  requests_of (log (snd (get_market_news (lib := pandas_refusing)
                           "stock" (Some "AAPL") 5 (demo_state offline []))))
  = ["https://financialmodelingprep.com/api/v3/stock_news?tickers=AAPL&limit=5&apikey=demo"]
  /\ requests_of (log (snd (get_market_news (lib := pandas_refusing)
                              "forex" None 10 (demo_state offline []))))
     = ["https://financialmodelingprep.com/api/v4/forex_news?limit=10&apikey=demo"].
Proof. split; vm_compute; reflexivity. Qed.

Example sentiment_url :
  requests_of (log (snd (get_sentiment (lib := pandas_refusing)
                           "AAPL" 10 (demo_state offline []))))
  = ["https://financialmodelingprep.com/api/v4/historical/social-sentiment?symbol=AAPL&limit=10&apikey=demo"].
Proof. vm_compute. reflexivity. Qed.

(** A list of two records with different fields: the columns are the fields in
    order of first appearance, a missing field is NaN. *)
Example from_dict_records :
  from_dict (lib := pandas_refusing)
    (JArr [JObj [("a", JNum 1)]; JObj [("b", JNum 2); ("a", JNum 3)]])
  = Ok (mkDataFrame [LStr "a"; LStr "b"] [LInt 0; LInt 1]
          [[CJson (JNum 1); CNaN]; [CJson (JNum 3); CJson (JNum 2)]] ∅).
Proof. vm_compute. reflexivity. Qed.

(** A profile arrives as a list of one object; transposed, its fields label
    the rows and the single column is renamed from [0] to [info]. *)
Example company_profile_table :
  fst (get_company_info (lib := pandas_refusing) "AAPL" 10 "company_profile"
         (demo_state
            (answering 200
               (Some (JArr [JObj [("symbol", JStr "AAPL"); ("price", JNum 1)]])))
            []))
  = Ok (PyFrame (mkDataFrame [LStr "info"] [LStr "symbol"; LStr "price"]
                   [[CJson (JStr "AAPL")]; [CJson (JNum 1)]] ∅)).
Proof. vm_compute. reflexivity. Qed.

(** Both bounds given: the closed interval, here three days. *)
Example loc_closed_interval :
  index <$> (match loc (lib := pandas_refusing) january_series
                     (Some "2023-01-03") (Some "2023-01-05") with
             | Ok part => Some part
             | Raise _ => None
             end)
  = Some (map (fun d => LTime (Some (january d))) [3; 4; 5]).
Proof. vm_compute. reflexivity. Qed.

(** C1 as stated fails: an unsupported period, and an unsupported chart kind,
    make the method return the integer 0, which is not the empty table. *)
Lemma invalid_period_returns_zero :
  fst (get_financial_data (lib := pandas_refusing)
         "AAPL" "balance_statement" "monthly" 10 false (demo_state offline []))
  = Ok (PyInt 0)
  /\ fst (draw_chart (lib := pandas_refusing)
            0 None None "area" (demo_state offline [january_series]))
     = Ok (PyInt 0)
  /\ Ok (PyInt 0) <> Ok (PyFrame empty_frame).
Proof. repeat split; [vm_compute; reflexivity .. | discriminate]. Qed.

(** The amended C1 on one unsupported value per selector. *)
Lemma invalid_selector_rejected_witness :
  let st := demo_state offline [january_series] in
  rejects (info_type_message "dividends")
    ["company_profile"; "company_rating"; "historical_rating"; "recommendations"]
    (PyFrame empty_frame) st
    (get_company_info (lib := pandas_refusing) "AAPL" 10 "dividends" st)
  /\ rejects (report_type_message "equity_statement")
       ["balance_statement"; "income_statement"; "cashflow_statement";
        "full_statement"]
       (PyFrame empty_frame) st
       (get_financial_data (lib := pandas_refusing)
          "AAPL" "equity_statement" "annual" 10 false st)
  /\ rejects (asset_type_message "bonds")
       ["forex"; "stock"; "commodities"; "crypto"] (PyFrame empty_frame) st
       (get_instruments (lib := pandas_refusing) "bonds" st)
  /\ rejects (market_type_message "bonds") ["stock"; "forex"; "crypto"]
       (PyFrame empty_frame) st
       (get_market_news (lib := pandas_refusing) "bonds" None 10 st)
  /\ rejects (period_message "monthly") ["annual"; "quarter"] (PyInt 0) st
       (get_financial_data (lib := pandas_refusing)
          "AAPL" "balance_statement" "monthly" 10 false st)
  /\ rejects (chart_type_message "area") ["candle"; "line"; "ohlc"] (PyInt 0) st
       (draw_chart (lib := pandas_refusing) 0 None None "area" st).
Proof.
  intros st.
  destruct (invalid_selector_rejected (lib := pandas_refusing) st)
    as (H1 & H2 & H3 & H4 & H5 & H6).
  split; [apply H1; compute_done|].
  split; [apply H2; compute_done|].
  split; [apply H3; compute_done|].
  split; [apply H4; compute_done|].
  split; [apply H5; compute_done|].
  apply H6; compute_done.
Defined.

(** C2 on the specification's literal example. *)
Lemma get_financial_data_endpoint_example :
  "income_statement" ∈ ["balance_statement"; "income_statement";
                        "cashflow_statement"; "full_statement"]
  /\ "quarter" ∈ ["annual"; "quarter"]
  /\ requests_of
       (log (snd (get_financial_data (lib := pandas_refusing)
                    "AAPL" "income_statement" "quarter" 5 true
                    (demo_state offline []))))
     = ["https://financialmodelingprep.com/api/v3/income-statement-as-reported/AAPL?period=quarter&limit=5&apikey=demo"].
Proof.
  split; [compute_done|]. split; [compute_done|].
  apply (get_financial_data_endpoint (lib := pandas_refusing)
           (demo_state offline []) "AAPL" "income_statement" "quarter" 5 true);
    compute_done.
Defined.

(** C6 as stated fails: with the service out of reach the constructor leaves
    with the transport's exception, and on a refusal whose body is not JSON
    it leaves with the decoding error. *)
Lemma constructor_raises :
  fst (__init__ "demo" (demo_state offline [])) = Raise ConnectionError
  /\ fst (__init__ "demo" (demo_state (answering 503 None) []))
     = Raise JSONDecodeError.
Proof. split; vm_compute; reflexivity. Qed.

(** The amended C6 on four services. *)
Lemma constructor_probe_witness :
  let url := "https://financialmodelingprep.com/api/v3/profile/AAPL?apikey=demo" in
  let up := demo_state (answering 200 None) [] in
  let refusing := demo_state (answering 401 (Some error_body)) [] in
  let down := demo_state offline [] in
  let broken := demo_state (answering 503 None) [] in
  __init__ "demo" up
  = (Ok tt, mkState (mkFmpConnector "demo") (remote up) []
              [Request url; Print (PStr "Connected")])
  /\ __init__ "demo" refusing
     = (Ok tt, mkState (mkFmpConnector "demo") (remote refusing) []
                 [Request url; Print (PJson error_body)])
  /\ fst (__init__ "demo" down) = Raise ConnectionError
  /\ fst (__init__ "demo" broken) = Raise JSONDecodeError.
Proof.
  intros url up refusing down broken.
  split; [|split; [|split]].
  - exact (proj1 (constructor_probe "demo" up) None eq_refl).
  - exact (proj1 (proj2 (constructor_probe "demo" refusing)) 401 error_body eq_refl
             ltac:(discriminate)).
  - exact (proj1 (proj2 (proj2 (constructor_probe "demo" down))) eq_refl).
  - exact (proj2 (proj2 (proj2 (constructor_probe "demo" broken))) 503 eq_refl
             ltac:(discriminate)).
Defined.

(** C5 on a service that answers with the specification's response. *)
Lemma get_daily_prices_single_row_witness :
  let st := demo_state (answering 200 (Some aapl_response)) [] in
  remote st "https://financialmodelingprep.com/api/v3/historical-price-full/AAPL?apikey=demo"
  = Response 200 (Some aapl_response)
  /\ fst (get_daily_prices (lib := pandas_refusing) "AAPL" st)
     = Ok (PyFrame aapl_table).
Proof.
  intros st. split; [reflexivity|].
  destruct (get_daily_prices_single_row (lib := pandas_refusing) st 200 eq_refl)
    as [Hrun _].
  rewrite Hrun. reflexivity.
Defined.

(** C7 on a valid period. *)
Lemma full_statement_ignores_as_reported_witness :
  "annual" ∈ ["annual"; "quarter"]
  /\ requests_of
       (log (snd (get_financial_data (lib := pandas_refusing)
                    "AAPL" "full_statement" "annual" 10 true
                    (demo_state offline []))))
     = ["https://financialmodelingprep.com/api/v3/financial-statement-full-as-reported/AAPL?period=annual&limit=10&apikey=demo"].
Proof.
  split; [compute_done|].
  apply (proj2 (full_statement_ignores_as_reported (lib := pandas_refusing)
                  (demo_state offline []) "AAPL" "annual" 10));
    compute_done.
Defined.

(** C9 on two states that differ in their stores and traces. *)
Lemma fetch_deterministic_witness :
  let service := answering 200 (Some aapl_response) in
  let s1 := demo_state service [] in
  let s2 := mkState (mkFmpConnector "demo") service [january_series]
              [Print (PStr "Connected")] in
  is_fetch (Call_get_daily_prices "AAPL") = true
  /\ self s1 = self s2
  /\ (forall url, remote s1 url = remote s2 url)
  /\ fst (perform (lib := pandas_refusing) (Call_get_daily_prices "AAPL") s1)
     = fst (perform (lib := pandas_refusing) (Call_get_daily_prices "AAPL") s2).
Proof.
  intros service s1 s2.
  split; [reflexivity|]. split; [reflexivity|]. split; [reflexivity|].
  apply (fetch_deterministic (lib := pandas_refusing)
           (Call_get_daily_prices "AAPL") s1 s2);
    reflexivity.
Defined.

(** C10 on the January series. *)
Lemma draw_chart_leaves_tables_witness :
  let st := demo_state offline [january_series] in
  heap st !! 0%nat = Some january_series
  /\ heap (snd (draw_chart (lib := pandas_refusing)
                  0 (Some "2023-01-02") None "candle" st)) !! 0%nat
     = Some january_series.
Proof.
  intros st. split; [reflexivity|].
  apply (proj2 (draw_chart_leaves_tables (lib := pandas_refusing)
                  st 0 (Some "2023-01-02") None "candle")).
  reflexivity.
Defined.




(** * Further properties of the client *)

(** Splits the membership of a pair in a dictionary literal into its entries. *)
Ltac literal_entries H :=
  apply elem_of_list_to_map_2 in H;
  repeat (apply elem_of_cons in H as [H|H]; [injection H as -> ->|]);
  [..|by apply elem_of_nil in H].

Section Further.
Context `{lib : PandasRest}.

(** ** How a fetch method runs *)

Lemma report_type_dict_entry c symbol period limit report_type entry :
  report_type_dict c symbol period limit !! report_type = Some entry ->
  is_Some (entry !! 0%nat)
  /\ (report_type <> "full_statement" -> is_Some (entry !! 1%nat)).
Proof.
  intros Hl. literal_entries Hl; (split; [eexists; reflexivity|]);
    intros Hne; first [eexists; reflexivity | contradiction].
Qed.

Lemma market_type_dict_entry c symbol limit market_type entry :
  market_type_dict c symbol limit !! market_type = Some entry ->
  is_Some (entry !! 0%nat) /\ is_Some (entry !! 1%nat).
Proof.
  intros Hl. literal_entries Hl; split; eexists; reflexivity.
Qed.

Lemma get_company_info_outcome st symbol limit info_type :
  fetch_outcome st (get_company_info symbol limit info_type st).
Proof.
  destruct (company_info_dict (self st) symbol limit !! info_type) as [url|] eqn:Hd.
  - right. do 3 eexists. apply get_company_info_known. exact Hd.
  - left. do 2 eexists. apply get_company_info_unknown. exact Hd.
Qed.

Lemma get_financial_data_outcome st symbol report_type period limit as_reported :
  fetch_outcome st
    (get_financial_data symbol report_type period limit as_reported st).
Proof.
  destruct (decide (period ∈ ["annual"; "quarter"])) as [Hp|Hp];
    [|left; do 2 eexists; apply get_financial_data_period; exact Hp].
  destruct (report_type_dict (self st) symbol period limit !! report_type)
    as [entry|] eqn:Hd;
    [|left; do 2 eexists; apply get_financial_data_unknown; assumption].
  destruct (report_type_dict_entry _ _ _ _ _ _ Hd) as [H0 H1].
  right.
  destruct (as_reported && negb (bool_decide (report_type = "full_statement")))
    eqn:Hsel.
  - pose proof Hsel as Hboth.
    apply andb_true_iff in Hboth as [_ Hne].
    apply negb_true_iff, bool_decide_eq_false in Hne.
    destruct (H1 Hne) as [url Hu].
    do 3 eexists. eapply get_financial_data_known; eauto.
    rewrite Hsel. exact Hu.
  - destruct H0 as [url Hu].
    do 3 eexists. eapply get_financial_data_known; eauto.
    rewrite Hsel. exact Hu.
Qed.

Lemma get_instruments_outcome st asset_type :
  fetch_outcome st (get_instruments asset_type st).
Proof.
  destruct (asset_type_dict (self st) !! asset_type) as [url|] eqn:Hd.
  - right. do 3 eexists. apply get_instruments_known. exact Hd.
  - left. do 2 eexists. apply get_instruments_unknown. exact Hd.
Qed.

Lemma get_market_news_outcome st market_type symbol limit :
  fetch_outcome st (get_market_news market_type symbol limit st).
Proof.
  destruct (market_type_dict (self st) symbol limit !! market_type)
    as [entry|] eqn:Hd;
    [|left; do 2 eexists; apply get_market_news_unknown; exact Hd].
  destruct (market_type_dict_entry _ _ _ _ _ Hd) as [H0 [u1 H1]].
  right. destruct symbol as [sym|].
  - do 3 eexists. eapply get_market_news_known; eauto.
  - destruct H0 as [u0 Hu0]. do 3 eexists.
    eapply get_market_news_known; eauto.
Qed.

Lemma get_sentiment_outcome st symbol limit :
  fetch_outcome st (get_sentiment symbol limit st).
Proof. right. do 3 eexists. apply get_sentiment_run. Qed.

Lemma tabulating_outcome c st :
  is_tabulating c = true -> fetch_outcome st (perform c st).
Proof.
  destruct c; simpl; intros Hc; try discriminate.
  - apply get_company_info_outcome.
  - apply get_financial_data_outcome.
  - apply get_instruments_outcome.
  - apply get_market_news_outcome.
  - apply get_sentiment_outcome.
Qed.

Lemma get_daily_prices_run st symbol :
  let url := host +:+ "/api/v3/historical-price-full/" +:+ symbol +:+ "?apikey=" +:+
             apikey (self st) in
  get_daily_prices symbol st
  = match remote st url with
    | NetworkError => (Raise ConnectionError, logged (Request url) st)
    | Response _ None => (Raise JSONDecodeError, logged (Request url) st)
    | Response _ (Some data) => priced symbol data (logged (Request url) st)
    end.
Proof.
  intros url. subst url.
  unfold get_daily_prices, priced, dated, json_getitem. run_monad.
  destruct (remote st _) as [|code [data|]]; cbn; try reflexivity.
  destruct data; cbn; try reflexivity.
  destruct (assoc "historical" members) as [historical|]; cbn; [|reflexivity].
  destruct (from_dict historical) as [t|e]; cbn;
    [|destruct (except_ValueError e); cbn; [|reflexivity]];
    repeat first
      [ reflexivity
      | match goal with
        | |- context [match getitem ?d ?n with _ => _ end] =>
            destruct (getitem d n); cbn
        | |- context [match to_datetime ?c with _ => _ end] =>
            destruct (to_datetime c); cbn
        | |- context [match set_index ?d ?n with _ => _ end] =>
            destruct (set_index d n); cbn
        end ].
Qed.

(** The empty table has no [date] column. *)
Lemma dated_empty symbol : dated symbol empty_frame = Raise KeyError.
Proof. reflexivity. Qed.

Lemma priced_trace symbol data s :
  snd (priced symbol data s) = s
  \/ (snd (priced symbol data s) = logged (Print (PJson data)) s
      /\ fst (priced symbol data s) = Raise KeyError).
Proof.
  unfold priced. destruct data; try (left; reflexivity).
  destruct (assoc "historical" members) as [historical|]; [|left; reflexivity].
  destruct (from_dict historical) as [t|e]; [left; reflexivity|].
  destruct (except_ValueError e); [|left; reflexivity].
  right. split; reflexivity.
Qed.

Lemma fetched_trace post df0 url st :
  snd (fetched post df0 url st) = logged (Request url) st
  \/ exists data, snd (fetched post df0 url st)
                  = logged (Print (PJson data)) (logged (Request url) st).
Proof.
  unfold fetched, tabulated.
  destruct (remote st url) as [|code [data|]]; try (left; reflexivity).
  destruct (from_dict data) as [t|e]; [left; reflexivity|].
  destruct (except_ValueError e); [right; exists data|left]; reflexivity.
Qed.

(** X1.  A fetch call adds to the trace the message of a rejected selector,
    or its one request, or its one request and the printed response; it never
    sends a second request and never shows a figure. *)
Theorem fetch_trace_shape c st :
  is_fetch c = true ->
  exists new,
    log (snd (perform c st)) = log st ++ new
    /\ trace_shape new
    /\ (length (requests_of new) <= 1)%nat
    /\ shows_of new = [].
Proof.
  intros Hc.
  assert (Hone : forall url, exists new,
             log (logged (Request url) st) = log st ++ new /\ trace_shape new
             /\ (length (requests_of new) <= 1)%nat /\ shows_of new = []).
  { intros url. exists [Request url]. repeat split; [|simpl; lia].
    right. left. eexists. reflexivity. }
  assert (Htwo : forall url data, exists new,
             log (logged (Print (PJson data)) (logged (Request url) st))
             = log st ++ new /\ trace_shape new
             /\ (length (requests_of new) <= 1)%nat /\ shows_of new = []).
  { intros url data. exists [Request url; Print (PJson data)].
    repeat split; [cbn; rewrite <- app_assoc; reflexivity | | simpl; lia].
    right. right. do 2 eexists. reflexivity. }
  destruct (is_tabulating c) eqn:Ht.
  - destruct (tabulating_outcome c st Ht) as [(msg & res & ->)|(post & df0 & url & ->)].
    + exists [Print (PStr msg)]. repeat split; [|simpl; lia].
      left. eexists. reflexivity.
    + destruct (fetched_trace post df0 url st) as [->|[data ->]];
        [apply Hone | apply Htwo].
  - destruct c; try discriminate. simpl.
    rewrite get_daily_prices_run.
    destruct (remote st _) as [|code [data|]]; try apply Hone.
    match goal with
    | |- context [priced symbol data ?s] =>
        destruct (priced_trace symbol data s) as [->|[-> _]]
    end; [apply Hone | apply Htwo].
Qed.

(** X2.  When the service cannot be reached, or answers with a body that is
    not JSON, a fetch call that sends its request leaves with the transport's
    exception or with the decoding error, and prints nothing; the handlers of
    [KeyError] and [ValueError] do not see either. *)
Theorem transport_failure_propagates c st :
  is_fetch c = true ->
  (forall url, remote st url = NetworkError
               \/ exists code, remote st url = Response code None) ->
  (exists msg res, perform c st = (Ok res, logged (Print (PStr msg)) st))
  \/ (exists url,
        snd (perform c st) = logged (Request url) st
        /\ ((remote st url = NetworkError
             /\ fst (perform c st) = Raise ConnectionError)
            \/ (exists code, remote st url = Response code None
                /\ fst (perform c st) = Raise JSONDecodeError))).
Proof.
  intros Hc Hdown.
  assert (Hfail : forall post df0 url,
             snd (fetched post df0 url st) = logged (Request url) st
             /\ ((remote st url = NetworkError
                  /\ fst (fetched post df0 url st) = Raise ConnectionError)
                 \/ (exists code, remote st url = Response code None
                     /\ fst (fetched post df0 url st) = Raise JSONDecodeError))).
  { intros post df0 url. unfold fetched.
    destruct (Hdown url) as [Hr|[code Hr]]; rewrite Hr; (split; [reflexivity|]).
    - left. split; reflexivity.
    - right. exists code. split; reflexivity. }
  destruct (is_tabulating c) eqn:Ht.
  - destruct (tabulating_outcome c st Ht) as [(msg & res & Hrun)|(post & df0 & url & Hrun)].
    + left. eauto.
    + right. exists url. rewrite Hrun. apply Hfail.
  - destruct c; try discriminate. simpl. right.
    pose proof (get_daily_prices_run st symbol) as Hrun. cbv zeta in Hrun.
    match type of Hrun with
    | context [remote st ?u] =>
        exists u; destruct (Hdown u) as [Hr|[code Hr]]; rewrite Hr in Hrun
    end; rewrite Hrun; (split; [reflexivity|]).
    + left. split; [exact Hr | reflexivity].
    + right. exists code. split; [exact Hr | reflexivity].
Qed.

(** X3.  A tabulating fetch method raises only what the transport raised,
    the decoding error of a body that is not JSON, or an exception other than
    [ValueError] that pandas raised on the decoded body.  The lookups in the
    template lists of lines 139-141 and 261-263 never raise. *)
Theorem tabulating_exceptions c st e :
  is_tabulating c = true ->
  fst (perform c st) = Raise e ->
  (e = ConnectionError /\ exists url, remote st url = NetworkError)
  \/ (e = JSONDecodeError /\ exists url code, remote st url = Response code None)
  \/ (except_ValueError e = false
      /\ exists url code data,
           remote st url = Response code (Some data) /\ from_dict data = Raise e).
Proof.
  intros Ht Hraise.
  destruct (tabulating_outcome c st Ht) as [(msg & res & Hrun)|(post & df0 & url & Hrun)];
    rewrite Hrun in Hraise; [discriminate|].
  unfold fetched, tabulated in Hraise.
  destruct (remote st url) as [|code [data|]] eqn:Hr; simpl in Hraise.
  - injection Hraise as <-. left. eauto.
  - destruct (from_dict data) as [t|e'] eqn:Hd; [discriminate|].
    destruct (except_ValueError e') eqn:He; [discriminate|].
    injection Hraise as <-. right. right. split; [exact He|]. eauto.
  - injection Hraise as <-. right. left. eauto.
Qed.

(** ** Company information *)

(** X4.  For the profile and the rating, [get_company_info] does not use its
    [limit]: two calls that differ in it only run alike. *)
Theorem company_profile_ignores_limit st symbol limit1 limit2 info_type :
  info_type ∈ ["company_profile"; "company_rating"] ->
  get_company_info symbol limit1 info_type st
  = get_company_info symbol limit2 info_type st.
Proof.
  intros Hi.
  repeat (apply elem_of_cons in Hi as [->|Hi]); [..|by apply elem_of_nil in Hi].
  - rewrite (get_company_info_known st symbol limit1 "company_profile"
               (host +:+ "/api/v3/profile/" +:+ symbol +:+ "?apikey=" +:+
                apikey (self st)) eq_refl).
    rewrite (get_company_info_known st symbol limit2 "company_profile"
               (host +:+ "/api/v3/profile/" +:+ symbol +:+ "?apikey=" +:+
                apikey (self st)) eq_refl).
    reflexivity.
  - rewrite (get_company_info_known st symbol limit1 "company_rating"
               (host +:+ "/api/v3/rating/" +:+ symbol +:+ "?apikey=" +:+
                apikey (self st)) eq_refl).
    rewrite (get_company_info_known st symbol limit2 "company_rating"
               (host +:+ "/api/v3/rating/" +:+ symbol +:+ "?apikey=" +:+
                apikey (self st)) eq_refl).
    reflexivity.
Qed.

Lemma add_keys_fresh acc ks :
  NoDup (acc ++ ks) -> foldl add_key acc ks = acc ++ ks.
Proof.
  revert acc. induction ks as [|k ks IH]; intros acc Hnd; simpl.
  - rewrite app_nil_r. reflexivity.
  - assert (Hk : k ∉ acc).
    { apply NoDup_app in Hnd as (_ & Hdis & _). intros Hin.
      apply (Hdis k Hin). left. }
    unfold add_key at 2. rewrite (bool_decide_eq_false_2 _ Hk).
    rewrite IH; rewrite <- app_assoc; [reflexivity | exact Hnd].
Qed.

Lemma assoc_skip k k' v rest :
  k <> k' -> assoc k' ((k, v) :: rest) = assoc k' rest.
Proof.
  intros Hne. simpl. destruct (String.eqb k k') eqn:He; [|reflexivity].
  apply String.eqb_eq in He. contradiction.
Qed.

Lemma record_row_self members :
  NoDup members.*1 ->
  record_row members.*1 members = map (fun v => CJson v) members.*2.
Proof.
  unfold record_row.
  induction members as [|[k v] rest IH]; intros Hnd; [reflexivity|].
  apply NoDup_cons in Hnd as [Hk Hnd]. cbn.
  rewrite String.eqb_refl. f_equal.
  rewrite <- (IH Hnd). apply map_ext_in. intros k' Hin.
  destruct (String.eqb k k') eqn:He; [|reflexivity].
  apply String.eqb_eq in He. subst k'.
  exfalso. apply Hk. apply list_elem_of_In. exact Hin.
Qed.

Lemma column_of_row {A} (row : list A) d :
  map (fun j => [nth j row d]) (seq 0 (length row)) = map (fun c => [c]) row.
Proof.
  induction row as [|c row IH]; [reflexivity|].
  cbn [length seq map nth]. f_equal.
  rewrite <- seq_shift, map_map. exact IH.
Qed.

Lemma single_record members :
  NoDup members.*1 ->
  frame_of_records [members]
  = mkDataFrame (map LStr members.*1) [LInt 0]
      [map (fun v => CJson v) members.*2] ∅.
Proof.
  intros Hnd. unfold frame_of_records, record_keys. cbn.
  rewrite (add_keys_fresh [] members.*1 Hnd). cbn.
  pose proof (record_row_self members Hnd) as Hrow.
  unfold record_row in Hrow. rewrite Hrow. reflexivity.
Qed.

Lemma keeps_cells_text df row text :
  row ∈ values df -> CJson (JStr text) ∈ row -> keeps_cells df = true.
Proof.
  intros Hrow Hcell. unfold keeps_cells. apply orb_true_iff. right.
  apply existsb_exists. exists row. split; [apply list_elem_of_In, Hrow|].
  apply existsb_exists. exists (CJson (JStr text)).
  split; [apply list_elem_of_In, Hcell | reflexivity].
Qed.

(** X5.  A profile or a rating arrives as a list of one object.  When one of
    its fields is a text, as the symbol is, the table returned has one row per
    field of that object, labelled by the field's name and holding its value,
    in the single column [info]. *)
Theorem company_profile_rows_are_fields st symbol limit info_type url code members
    name text :
  info_type ∈ ["company_profile"; "company_rating"] ->
  company_info_dict (self st) symbol limit !! info_type = Some url ->
  remote st url = Response code (Some (JArr [JObj members])) ->
  NoDup members.*1 ->
  (name, JStr text) ∈ members ->
  get_company_info symbol limit info_type st
  = (Ok (PyFrame (mkDataFrame [LStr "info"] (map LStr members.*1)
                    (map (fun v => [CJson v]) members.*2) ∅)),
     logged (Request url) st).
Proof.
  intros Hi Hd Hr Hnd Htext.
  rewrite (get_company_info_known _ _ _ _ _ Hd).
  assert (Hpost : bool_decide (info_type ∈ ["historical_rating"; "recommendations"])
                  = false).
  { apply bool_decide_eq_false. intros Hin.
    repeat (apply elem_of_cons in Hi as [->|Hi]); [..|by apply elem_of_nil in Hi];
      repeat (apply elem_of_cons in Hin as [Hin|Hin]; [discriminate|]);
      by apply elem_of_nil in Hin. }
  assert (Hfrom : from_dict (JArr [JObj members])
                  = Ok (frame_of_records [members])) by reflexivity.
  unfold fetched, tabulated. rewrite Hr, Hpost, Hfrom, (single_record _ Hnd).
  cbn [negb]. unfold transpose.
  rewrite (keeps_cells_text _ (map (fun v => CJson v) members.*2) text);
    [| apply list_elem_of_here
     | apply (list_elem_of_fmap_2 (fun v => CJson v)),
         (list_elem_of_fmap_2 snd _ _ Htext)].
  unfold rename_0_info. cbn.
  rewrite length_map.
  replace (length members.*1) with (length (map (fun v => CJson v) members.*2))
    by (rewrite length_map, !length_fmap; reflexivity).
  rewrite column_of_row.
  rewrite (map_map (fun v : json => CJson v) (fun c : cell => [c])).
  reflexivity.
Qed.

(** ** Market news *)

(** X6.  For every supported market, [get_market_news] sends one request:
    without an instrument to the general feed, with one to the feed filtered
    by it, the stock feed by [tickers] and the other feeds by [symbol].  The
    text [None] of the unused template never reaches the service. *)
Theorem get_market_news_endpoint st market_type symbol limit :
  market_type ∈ ["stock"; "forex"; "crypto"] ->
  requests_of (log (snd (get_market_news market_type symbol limit st)))
  = requests_of (log st) ++
    [news_endpoint (apikey (self st)) market_type symbol limit].
Proof.
  intros Hm.
  repeat (apply elem_of_cons in Hm as [->|Hm]); [..|by apply elem_of_nil in Hm];
    destruct symbol as [sym|];
    (erewrite get_market_news_known;
     [rewrite fetched_requests; reflexivity | reflexivity
     | eexists; reflexivity | reflexivity]).
Qed.

(** ** Tables of records *)

Lemma add_key_elem acc k x : x ∈ add_key acc k <-> x ∈ acc \/ x = k.
Proof.
  unfold add_key. destruct (bool_decide (k ∈ acc)) eqn:Hk;
    [apply bool_decide_eq_true in Hk | apply bool_decide_eq_false in Hk].
  - split; [auto|]. intros [Hx | ->]; assumption.
  - rewrite elem_of_app, list_elem_of_singleton. reflexivity.
Qed.

Lemma add_key_NoDup acc k : NoDup acc -> NoDup (add_key acc k).
Proof.
  intros Hnd. unfold add_key. destruct (bool_decide (k ∈ acc)) eqn:Hk;
    [exact Hnd | apply bool_decide_eq_false in Hk].
  apply NoDup_app. repeat split; [exact Hnd | | apply NoDup_singleton].
  intros x Hx Hxk. apply list_elem_of_singleton in Hxk. subst x. contradiction.
Qed.

Lemma add_keys_elem ks acc x : x ∈ foldl add_key acc ks <-> x ∈ acc \/ x ∈ ks.
Proof.
  revert acc. induction ks as [|k ks IH]; intros acc; simpl.
  - rewrite elem_of_nil. tauto.
  - rewrite IH, add_key_elem, elem_of_cons. tauto.
Qed.

Lemma add_keys_NoDup ks acc : NoDup acc -> NoDup (foldl add_key acc ks).
Proof.
  revert acc. induction ks as [|k ks IH]; intros acc Hnd; simpl; [exact Hnd|].
  apply IH, add_key_NoDup, Hnd.
Qed.

Lemma record_keys_from acc (recs : list (list (string * json))) x :
  x ∈ foldl (fun acc r => foldl add_key acc (r.*1)) acc recs
  <-> x ∈ acc \/ exists r, r ∈ recs /\ x ∈ r.*1.
Proof.
  revert acc. induction recs as [|r recs IH]; intros acc; simpl.
  - split; [auto|]. intros [Hx|(r & Hr & _)]; [exact Hx|].
    by apply elem_of_nil in Hr.
  - rewrite IH, add_keys_elem. split.
    + intros [[Hx|Hx]|(r' & Hr' & Hx)]; [auto| |].
      * right. exists r. split; [left|exact Hx].
      * right. exists r'. split; [right; exact Hr'|exact Hx].
    + intros [Hx|(r' & Hr' & Hx)]; [auto|].
      apply elem_of_cons in Hr' as [-> | Hr']; [auto|]. right. eauto.
Qed.

(** The columns of a table of records are the field names of its records,
    each once. *)
Lemma record_keys_elem recs x :
  x ∈ record_keys recs <-> exists r, r ∈ recs /\ x ∈ r.*1.
Proof.
  unfold record_keys. rewrite record_keys_from, elem_of_nil. tauto.
Qed.

Lemma record_keys_NoDup recs : NoDup (record_keys recs).
Proof.
  unfold record_keys. generalize (NoDup_nil_2 (A := string)).
  generalize (@nil string) as acc. induction recs as [|r recs IH]; intros acc Hnd.
  - exact Hnd.
  - simpl. apply IH, add_keys_NoDup, Hnd.
Qed.

Lemma assoc_elem k v members : assoc k members = Some v -> k ∈ members.*1.
Proof.
  induction members as [|[k' v'] rest IH]; simpl; [discriminate|].
  destruct (String.eqb k' k) eqn:He.
  - apply String.eqb_eq in He. subst k'. intros _. left.
  - intros Ha. right. apply IH, Ha.
Qed.

(** ** Columns by name *)

Lemma column_pos_absent name keys :
  name ∉ keys -> column_pos name (map LStr keys) = None.
Proof.
  induction keys as [|k keys IH]; intros Hn; [reflexivity|].
  apply not_elem_of_cons in Hn as [Hne Hn]. simpl.
  destruct (String.eqb k name) eqn:He.
  - apply String.eqb_eq in He. congruence.
  - rewrite (IH Hn). reflexivity.
Qed.

Lemma column_pos_present name keys :
  name ∈ keys ->
  exists i, column_pos name (map LStr keys) = Some i /\ keys !! i = Some name.
Proof.
  induction keys as [|k keys IH]; intros Hn; [by apply elem_of_nil in Hn|].
  simpl. destruct (String.eqb k name) eqn:He.
  - apply String.eqb_eq in He. subst k. exists 0%nat. split; reflexivity.
  - apply elem_of_cons in Hn as [->|Hn]; [rewrite String.eqb_refl in He; discriminate|].
    destruct (IH Hn) as (i & Hi & Hk). exists (S i). rewrite Hi. split; [reflexivity|exact Hk].
Qed.

Lemma column_pos_delete name keys i :
  NoDup keys ->
  column_pos name (map LStr keys) = Some i ->
  column_pos name (delete i (map LStr keys)) = None.
Proof.
  intros Hnd. revert i. induction Hnd as [|k keys Hk Hnd IH]; intros i; [discriminate|].
  simpl. destruct (String.eqb k name) eqn:He.
  - intros Hi. injection Hi as <-. simpl.
    apply String.eqb_eq in He. subst k. apply column_pos_absent, Hk.
  - destruct (column_pos name (map LStr keys)) as [j|] eqn:Hj; [|discriminate].
    intros Hi. injection Hi as <-. simpl. rewrite He, (IH j eq_refl). reflexivity.
Qed.

Lemma column_pos_delete_other name n cols i :
  n <> name ->
  column_pos name cols = Some i ->
  is_Some (column_pos n cols) ->
  is_Some (column_pos n (delete i cols)).
Proof.
  intros Hne. revert i. induction cols as [|c cols IH]; intros i; [discriminate|].
  simpl. destruct (is_name name c) eqn:Hc.
  - intros Hi. injection Hi as <-. simpl.
    destruct (is_name n c) eqn:Hn; [|destruct (column_pos n cols); [eauto|intros []; discriminate]].
    destruct c; try discriminate. simpl in Hc, Hn.
    apply String.eqb_eq in Hc, Hn. congruence.
  - destruct (column_pos name cols) as [j|] eqn:Hj; [|discriminate].
    intros Hi. injection Hi as <-. simpl.
    destruct (is_name n c); [eauto|].
    intros Hs. destruct (IH j eq_refl) as [p Hp].
    + destruct (column_pos n cols); [eauto|destruct Hs; discriminate].
    + rewrite Hp. eauto.
Qed.

(** ** Daily prices *)

Lemma nth_record_row keys r i k :
  keys !! i = Some k ->
  nth i (record_row keys r) CNaN
  = match assoc k r with Some v => CJson v | None => CNaN end.
Proof.
  intros Hk. apply nth_lookup_Some. unfold record_row.
  change (map ?f keys) with (f <$> keys).
  rewrite list_lookup_fmap, Hk. reflexivity.
Qed.

Lemma to_datetime_parsed cells days :
  Forall2 (fun c d => exists s, c = CJson (JStr s) /\ parse_date s = Some d)
    cells days ->
  to_datetime cells = Ok (map (fun d => CTime (Some d)) days).
Proof.
  induction 1 as [|c d cells days (s & -> & Hs) _ IH]; [reflexivity|].
  cbn. rewrite Hs, IH. reflexivity.
Qed.

Lemma relabel rows col i :
  Forall (fun r => (i < length r)%nat) rows ->
  length rows = length col ->
  map (fun r => label_of_cell (nth i r CNaN))
      (zip_with (fun r c => <[i:=c]> r) rows col)
  = map label_of_cell col.
Proof.
  intros Hrows. revert col.
  induction Hrows as [|r rows Hr _ IH]; intros col Hlen.
  - destruct col; [reflexivity | discriminate].
  - destruct col as [|c col]; [discriminate|]. cbn. f_equal.
    + f_equal. apply nth_lookup_Some, list_lookup_insert_eq, Hr.
    + apply IH. simpl in Hlen. congruence.
Qed.

Lemma date_column keys i recs days :
  keys !! i = Some "date" ->
  Forall2 (fun r d => exists s, assoc "date" r = Some (JStr s)
                                /\ parse_date s = Some d) recs days ->
  Forall2 (fun c d => exists s, c = CJson (JStr s) /\ parse_date s = Some d)
    (map (fun r => nth i r CNaN) (map (record_row keys) recs)) days.
Proof.
  intros Hk. induction 1 as [|r d recs' days' (s & Ha & Hs) _ IH]; [constructor|].
  cbn. constructor; [|exact IH].
  exists s. split; [|exact Hs].
  rewrite (nth_record_row keys r i "date" Hk), Ha. reflexivity.
Qed.

(** The table of records whose [date] fields all parse, once dated. *)
Lemma dated_records symbol recs days :
  Forall2 (fun r d => exists s, assoc "date" r = Some (JStr s)
                                /\ parse_date s = Some d) recs days ->
  days <> [] ->
  exists table,
    dated symbol (frame_of_records recs) = Ok (PyFrame table)
    /\ index table = map (fun d => LTime (Some d)) days
    /\ length (values table) = length days
    /\ column_pos "date" (columns table) = None
    /\ attrs table = {["instrument" := symbol]}
    /\ (forall n, n <> "date" -> n ∈ record_keys recs ->
         is_Some (column_pos n (columns table))).
Proof.
  intros Hdays Hne.
  set (keys := record_keys recs).
  assert (Hdate : "date" ∈ keys).
  { destruct Hdays as [|r d recs' days' (s & Ha & _) _]; [contradiction|].
    apply record_keys_elem. exists r. split; [left|].
    exact (assoc_elem _ _ _ Ha). }
  destruct (column_pos_present "date" keys Hdate) as (i & Hi & Hk).
  assert (Hcol : Forall2 (fun c d => exists s, c = CJson (JStr s)
                                               /\ parse_date s = Some d)
                   (map (fun r => nth i r CNaN) (map (record_row keys) recs))
                   days).
  { exact (date_column keys i recs days Hk Hdays). }
  assert (Hwide : Forall (fun r => (i < length r)%nat) (map (record_row keys) recs)).
  { apply Forall_forall. intros row Hrow.
    apply list_elem_of_fmap in Hrow as (r & -> & _).
    unfold record_row. rewrite length_map. eapply lookup_lt_Some, Hk. }
  assert (Hlen : length (map (record_row keys) recs) = length days).
  { rewrite length_map. eapply Forall2_length, Hdays. }
  assert (Hlen' : length (map (record_row keys) recs)
                  = length (map (fun d => CTime (Some d)) days)).
  { rewrite Hlen, length_map. reflexivity. }
  unfold dated, getitem, setitem, set_index, attrs_setitem, frame_of_records.
  fold keys. cbn [columns index values attrs]. rewrite Hi.
  rewrite (to_datetime_parsed _ _ Hcol). cbn [columns index values attrs].
  rewrite Hi. eexists. split; [reflexivity|]. cbn [columns index values attrs].
  split.
  { rewrite (relabel _ _ i Hwide Hlen'), map_map. reflexivity. }
  split.
  { rewrite length_map, (length_zip_with_l_eq _ _ _ Hlen'). exact Hlen. }
  split; [apply column_pos_delete; [apply record_keys_NoDup | exact Hi]|].
  split; [reflexivity|].
  intros n Hn Hin. apply (column_pos_delete_other "date"); [exact Hn | exact Hi|].
  destruct (column_pos_present n keys Hin) as (j & Hj & _). eauto.
Qed.

(** X7.  When the service answers with a history of observations, each an
    object whose [date] is a day in the form [yyyy-MM-dd], [get_daily_prices]
    sends one request, prints nothing and returns a table with one row per
    observation, labelled by the parsed days in the order of the response.
    The [date] column is gone, the other fields are still columns, and
    [attrs] hold the instrument. *)
Theorem get_daily_prices_history st symbol code members items recs days :
  let url := host +:+ "/api/v3/historical-price-full/" +:+ symbol +:+ "?apikey=" +:+
             apikey (self st) in
  remote st url = Response code (Some (JObj members)) ->
  assoc "historical" members = Some (JArr items) ->
  mapM as_record items = Some recs ->
  Forall2 (fun r d => exists s, assoc "date" r = Some (JStr s)
                                /\ parse_date s = Some d) recs days ->
  days <> [] ->
  exists table,
    get_daily_prices symbol st = (Ok (PyFrame table), logged (Request url) st)
    /\ index table = map (fun d => LTime (Some d)) days
    /\ length (values table) = length days
    /\ column_pos "date" (columns table) = None
    /\ attrs table = {["instrument" := symbol]}
    /\ (forall n, n <> "date" -> n ∈ record_keys recs ->
         is_Some (column_pos n (columns table))).
Proof.
  intros url Hr Ha Hm Hdays Hne.
  destruct (dated_records symbol recs days Hdays Hne) as (table & Hdated & Hprops).
  exists table. split; [|exact Hprops].
  rewrite get_daily_prices_run. fold url. rewrite Hr.
  unfold priced. rewrite Ha.
  assert (Hfrom : from_dict (JArr items) = Ok (frame_of_records recs)).
  { destruct items as [|item items].
    - injection Hm as <-. inversion Hdays. subst. contradiction.
    - unfold from_dict. rewrite Hm. reflexivity. }
  rewrite Hfrom, Hdated. reflexivity.
Qed.

(** X8.  When the history is empty or absent, [null], an empty list or an
    empty object, [get_daily_prices] does not return an empty table: after
    its one request it raises [KeyError], because the empty table has no
    [date] column.  The same happens for a response without the
    ["historical"] member. *)
Theorem get_daily_prices_empty_history st symbol code members :
  let url := host +:+ "/api/v3/historical-price-full/" +:+ symbol +:+ "?apikey=" +:+
             apikey (self st) in
  remote st url = Response code (Some (JObj members)) ->
  match assoc "historical" members with
  | Some historical => historical = JNull \/ historical = JArr [] \/ historical = JObj []
  | None => True
  end ->
  get_daily_prices symbol st = (Raise KeyError, logged (Request url) st).
Proof.
  intros url Hr He.
  rewrite get_daily_prices_run. fold url. rewrite Hr. unfold priced.
  destruct (assoc "historical" members) as [historical|]; [|reflexivity].
  destruct He as [->|[->| ->]]; reflexivity.
Qed.

(** ** What [draw_chart] adds to the trace *)

Lemma logless_ret {A} (a : A) : logless (ret a).
Proof. intros s. reflexivity. Qed.

Lemma logless_raise {A} (e : exn) : logless (@raise A e).
Proof. intros s. reflexivity. Qed.

Lemma logless_lift {A} (o : outcome A) : logless (lift o).
Proof. intros s. reflexivity. Qed.

Lemma logless_load r : logless (load r).
Proof. intros s. unfold load. destruct (heap s !! r); reflexivity. Qed.

Lemma logless_alloc df : logless (alloc df).
Proof. intros s. reflexivity. Qed.

Lemma logless_dict_getitem {V} (d : gmap string V) k : logless (dict_getitem d k).
Proof. unfold dict_getitem. destruct (d !! k); [apply logless_ret | apply logless_raise]. Qed.

Lemma logless_list_getitem {V} (l : list V) i : logless (list_getitem l i).
Proof. unfold list_getitem. destruct (l !! i); [apply logless_ret | apply logless_raise]. Qed.

Lemma logless_list_last {V} (l : list V) : logless (list_last l).
Proof. unfold list_last. destruct (last l); [apply logless_ret | apply logless_raise]. Qed.

Lemma logless_bind {A B} (m : M A) (k : A -> M B) :
  logless m -> (forall a, logless (k a)) -> logless (bind m k).
Proof.
  intros Hm Hk s. unfold bind. specialize (Hm s).
  destruct (m s) as [[a|e] t]; simpl in *; [|exact Hm].
  rewrite (Hk a t). exact Hm.
Qed.

(** Follows a body that only reads. *)
Ltac logless_step :=
  first
    [ apply logless_bind; [|intros ?]
    | apply logless_ret | apply logless_raise | apply logless_lift
    | apply logless_load | apply logless_alloc
    | apply logless_dict_getitem | apply logless_list_getitem
    | apply logless_list_last
    | match goal with
      | |- logless (if ?b then _ else _) => destruct b
      | |- logless (match ?x with _ => _ end) => destruct x
      end ].

Lemma logless_select_window df start stop : logless (select_window df start stop).
Proof. unfold select_window. repeat logless_step. Qed.

Lemma logless_price_trace plot chart_type instrument :
  logless (price_trace plot chart_type instrument).
Proof. unfold price_trace. repeat logless_step. Qed.

Lemma shows_after {A} (m : M A) (k : A -> M pyobj) :
  logless m -> (forall a, shows_or_raises (k a)) -> shows_or_raises (bind m k).
Proof.
  intros Hm Hk s. unfold bind. specialize (Hm s).
  destruct (m s) as [[a|e] t]; simpl in *.
  - rewrite <- Hm. apply Hk.
  - right. exists e. split; [reflexivity | exact Hm].
Qed.

Lemma shows_at_last fig : shows_or_raises (do! emit (Show fig) in ret PyNone).
Proof. intros s. left. split; [reflexivity|]. exists fig. reflexivity. Qed.

(** X9.  [draw_chart] ends in one of three ways: it shows one figure and
    returns [None]; it rejects the chart kind, prints the message and returns
    0; or it raises, having printed and shown nothing.  A figure is shown
    only by a call that returns [None], and no call sends a request. *)
Theorem draw_chart_shows_once st df start stop chart_type :
  let r := draw_chart df start stop chart_type st in
  requests_of (log (snd r)) = requests_of (log st)
  /\ ((fst r = Ok PyNone /\ exists fig, log (snd r) = log st ++ [Show fig])
      \/ (fst r = Ok (PyInt 0)
          /\ (chart_type ∉ ["candle"; "line"; "ohlc"])
          /\ log (snd r) = log st ++ [Print (PStr (chart_type_message chart_type))])
      \/ (exists e, fst r = Raise e /\ log (snd r) = log st)).
Proof.
  intros r.
  assert (Hcases :
    (fst r = Ok PyNone /\ exists fig, log (snd r) = log st ++ [Show fig])
    \/ (fst r = Ok (PyInt 0)
        /\ (chart_type ∉ ["candle"; "line"; "ohlc"])
        /\ log (snd r) = log st ++ [Print (PStr (chart_type_message chart_type))])
    \/ (exists e, fst r = Raise e /\ log (snd r) = log st)).
  { subst r. unfold draw_chart.
    destruct (bool_decide (chart_type ∈ ["candle"; "line"; "ohlc"])) eqn:Hct.
    - cbn [negb].
      assert (Hs : shows_or_raises
                (let! window := select_window df start stop in
                 let '(df_plot, start_to_plot, end_to_plot) := window in
                 let! plot := load df_plot in
                 let! symbol := dict_getitem (attrs plot) "instrument" in
                 let interval :=
                   match attrs plot !! "interval" with
                   | Some i => i
                   | None => "daily"
                   end in
                 let title :=
                   mkTitle chart_type symbol interval start_to_plot end_to_plot in
                 let! volume := lift (getitem plot "volume") in
                 let bar := (Bar (index plot) volume "volume" "blue", 2) in
                 let! instrument := dict_getitem (attrs plot) "instrument" in
                 let! price := price_trace plot chart_type instrument in
                 do! emit (Show (mkFigure [4 # 5; 1 # 5]%Q true 800 (bar :: price)
                                   title false [("sat", "mon")])) in
                 ret PyNone)).
      { apply shows_after; [apply logless_select_window|].
        intros [[df_plot first] last].
        apply shows_after; [apply logless_load|]. intros plot.
        apply shows_after; [apply logless_dict_getitem|]. intros symbol. cbv zeta.
        apply shows_after; [apply logless_lift|]. intros volume.
        apply shows_after; [apply logless_dict_getitem|]. intros instrument.
        apply shows_after; [apply logless_price_trace|]. intros price.
        apply shows_at_last. }
      destruct (Hs st) as [Hshown|Hraised]; [left; exact Hshown|right; right; exact Hraised].
    - right. left. apply bool_decide_eq_false in Hct.
      split; [reflexivity|]. split; [exact Hct | reflexivity]. }
  split; [|exact Hcases].
  destruct Hcases as [[_ [fig ->]]|[(_ & _ & ->)|(e & _ & ->)]];
    rewrite ?requests_of_app; simpl; rewrite ?app_nil_r; reflexivity.
Qed.

(** ** The figure *)

(** The rest of [draw_chart] once the window is selected. *)
Lemma draw_chart_drawn st st' df df_plot first last start stop chart_type plot symbol :
  chart_type ∈ ["candle"; "line"; "ohlc"] ->
  select_window df start stop st = (Ok (df_plot, first, last), st') ->
  heap st' !! df_plot = Some plot ->
  attrs plot !! "instrument" = Some symbol ->
  has_columns plot (required_columns chart_type) = true ->
  exists volume close price,
    getitem plot "volume" = Ok volume
    /\ getitem plot "close" = Ok close
    /\ draw_chart df start stop chart_type st
       = (Ok PyNone,
          logged
            (Show (mkFigure [4 # 5; 1 # 5]%Q true 800
                     ((Bar (index plot) volume "volume" "blue", 2) :: price)
                     (mkTitle chart_type symbol
                        match attrs plot !! "interval" with
                        | Some i => i
                        | None => "daily"
                        end first last)
                     false [("sat", "mon")]))
            st')
    /\ ((chart_type = "line" /\ price = [(Scatter (index plot) close symbol, 1)])
        \/ exists o h l,
             getitem plot "open" = Ok o /\ getitem plot "high" = Ok h
             /\ getitem plot "low" = Ok l
             /\ ((chart_type = "candle"
                  /\ price = [(Candlestick (index plot) o h l close symbol, 1)])
                 \/ (chart_type = "ohlc"
                     /\ price = [(Ohlc (index plot) o h l close symbol, 1)]))).
Proof.
  intros Hct Hsel Hplot Hsym Hcols.
  assert (Hcol : forall n, n ∈ required_columns chart_type ->
                   exists col, getitem plot n = Ok col).
  { intros n Hn. exact (has_columns_getitem plot _ n Hcols Hn). }
  unfold draw_chart. rewrite (bool_decide_eq_true_2 _ Hct).
  unfold load, price_trace. run_monad. rewrite Hsel. rewrite Hplot. cbn.
  rewrite Hsym. cbn.
  repeat (apply elem_of_cons in Hct as [-> | Hct]); [..|by apply elem_of_nil in Hct].
  - destruct (Hcol "volume") as [v Hv]; [compute_done|].
    destruct (Hcol "open") as [o Ho]; [compute_done|].
    destruct (Hcol "high") as [h Hh]; [compute_done|].
    destruct (Hcol "low") as [l Hl]; [compute_done|].
    destruct (Hcol "close") as [c Hc]; [compute_done|].
    rewrite Hv, Ho, Hh, Hl, Hc. cbn.
    exists v, c. eexists. split; [reflexivity|]. split; [reflexivity|].
    split; [reflexivity|]. right. exists o, h, l. repeat split. left. split; reflexivity.
  - destruct (Hcol "volume") as [v Hv]; [compute_done|].
    destruct (Hcol "close") as [c Hc]; [compute_done|].
    rewrite Hv, Hc. cbn.
    exists v, c. eexists. split; [reflexivity|]. split; [reflexivity|].
    split; [reflexivity|]. left. split; reflexivity.
  - destruct (Hcol "volume") as [v Hv]; [compute_done|].
    destruct (Hcol "open") as [o Ho]; [compute_done|].
    destruct (Hcol "high") as [h Hh]; [compute_done|].
    destruct (Hcol "low") as [l Hl]; [compute_done|].
    destruct (Hcol "close") as [c Hc]; [compute_done|].
    rewrite Hv, Ho, Hh, Hl, Hc. cbn.
    exists v, c. eexists. split; [reflexivity|]. split; [reflexivity|].
    split; [reflexivity|]. right. exists o, h, l. repeat split. right. split; reflexivity.
Qed.

Lemma select_window_whole st df table first :
  heap st !! df = Some table ->
  index table !! 0%nat = Some first ->
  exists last,
    List.last (index table) first = last
    /\ select_window df None None st = (Ok (df, first, last), st).
Proof.
  intros Hheap Hfirst.
  assert (Hlast : last (index table) = Some (List.last (index table) first)).
  { destruct (index table) as [|l0 ls]; [discriminate|]. clear.
    revert l0. induction ls as [|l1 ls IH]; intros l0; [reflexivity|].
    change (last (l1 :: ls) = Some (List.last (l1 :: ls) first)). apply IH. }
  eexists. split; [reflexivity|].
  unfold select_window, load, list_last. run_monad.
  rewrite Hheap. cbn. rewrite Hfirst. cbn. rewrite Hlast. destruct st; reflexivity.
Qed.

End Further.


Section Charts.
Context `{lib : PandasRest}.

(** ** Tables that [draw_chart] cannot draw *)

Lemma getitem_cases df n :
  (exists col, getitem df n = Ok col) \/ getitem df n = Raise KeyError.
Proof. unfold getitem. destruct (column_pos n (columns df)); eauto. Qed.

Lemma getitem_absent df n :
  column_pos n (columns df) = None -> getitem df n = Raise KeyError.
Proof. intros Hn. unfold getitem. rewrite Hn. reflexivity. Qed.

(** X10.  A valid chart kind does not make a table drawable.  A table without
    rows raises [IndexError] whatever the bounds; a table without the
    [instrument] entry in [attrs], and a table that lacks a field of the chart
    kind, raise [KeyError].  In each case the state is left as it was: nothing
    is printed or shown. *)
Theorem draw_chart_undrawable st df table chart_type :
  chart_type ∈ ["candle"; "line"; "ohlc"] ->
  heap st !! df = Some table ->
  (index table = [] ->
   forall start stop,
     draw_chart df start stop chart_type st = (Raise IndexError, st))
  /\ (index table <> [] -> attrs table !! "instrument" = None ->
      draw_chart df None None chart_type st = (Raise KeyError, st))
  /\ (index table <> [] -> is_Some (attrs table !! "instrument") ->
      forall n, n ∈ required_columns chart_type ->
        column_pos n (columns table) = None ->
        draw_chart df None None chart_type st = (Raise KeyError, st)).
Proof.
  intros Hct Hheap.
  assert (Hwhole : index table <> [] ->
            exists first last,
              select_window df None None st = (Ok (df, first, last), st)).
  { intros Hne. destruct (index table) as [|first rest] eqn:Hidx; [contradiction|].
    destruct (select_window_whole st df table first Hheap) as (last & _ & Hsel);
      [rewrite Hidx; reflexivity|].
    eauto. }
  split; [|split].
  - intros Hidx start stop.
    unfold draw_chart. rewrite (bool_decide_eq_true_2 _ Hct).
    unfold select_window, load. run_monad. rewrite Hheap. cbn. rewrite Hidx.
    destruct st; reflexivity.
  - intros Hne Hsym. destruct (Hwhole Hne) as (first & last & Hsel).
    unfold draw_chart. rewrite (bool_decide_eq_true_2 _ Hct).
    unfold load. run_monad. rewrite Hsel. rewrite Hheap. cbn. rewrite Hsym.
    reflexivity.
  - intros Hne [symbol Hsym] n Hn Hmiss.
    destruct (Hwhole Hne) as (first & last & Hsel).
    apply getitem_absent in Hmiss.
    unfold draw_chart. rewrite (bool_decide_eq_true_2 _ Hct).
    unfold load, price_trace. run_monad. rewrite Hsel. rewrite Hheap. cbn.
    rewrite Hsym. cbn.
    repeat (apply elem_of_cons in Hct as [-> | Hct]);
      try (by apply elem_of_nil in Hct);
      cbn in Hn;
      repeat (apply elem_of_cons in Hn as [-> | Hn]);
      try (by apply elem_of_nil in Hn);
      rewrite ?Hmiss; cbn;
      repeat first
        [ reflexivity
        | match goal with
          | |- context [match getitem table ?m with _ => _ end] =>
              destruct (getitem_cases table m) as [[? ->] | ->]; cbn
          end ].
Qed.

(** ** Figures of drawable tables *)

Lemma select_window_sliced st df table first start stop part :
  heap st !! df = Some table ->
  index table !! 0%nat = Some first ->
  start <> None \/ stop <> None ->
  loc table start stop = Ok part ->
  select_window df start stop st
  = (Ok (length (heap st), from_option LStr first start,
         from_option LStr (List.last (index table) first) stop),
     mkState (self st) (remote st) (heap st ++ [part]) (log st)).
Proof.
  intros Hheap Hfirst Hgiven Hloc.
  assert (Hlast : last (index table) = Some (List.last (index table) first)).
  { destruct (index table) as [|l0 ls]; [discriminate|]. clear.
    revert l0. induction ls as [|l1 ls IH]; intros l0; [reflexivity|].
    change (last (l1 :: ls) = Some (List.last (l1 :: ls) first)). apply IH. }
  unfold select_window, load, alloc, list_last. run_monad.
  rewrite Hheap. cbn. rewrite Hfirst. cbn. rewrite Hlast. cbn.
  destruct start as [s|], stop as [e|]; cbn;
    [rewrite Hloc; reflexivity .. |].
  destruct Hgiven as [Hn|Hn]; contradiction.
Qed.

(** X11.  Without bounds [draw_chart] plots the caller's table itself, for
    any row labels and in any row order: no slice is taken and the store is
    left as it was.  The figure has the volume bars in the lower panel and the
    price trace in the upper one, both over all the rows; its title carries
    the chart kind, the instrument, the interval from [attrs] or [daily], and
    the first and the last row label. *)
Theorem draw_chart_whole_table st df table first chart_type symbol :
  chart_type ∈ ["candle"; "line"; "ohlc"] ->
  heap st !! df = Some table ->
  index table !! 0%nat = Some first ->
  attrs table !! "instrument" = Some symbol ->
  has_columns table (required_columns chart_type) = true ->
  exists volume price,
    draw_chart df None None chart_type st
    = (Ok PyNone,
       logged
         (Show (mkFigure [4 # 5; 1 # 5]%Q true 800
                  ((Bar (index table) volume "volume" "blue", 2) :: price)
                  (mkTitle chart_type symbol
                     match attrs table !! "interval" with
                     | Some i => i
                     | None => "daily"
                     end first (List.last (index table) first))
                  false [("sat", "mon")]))
         st)
    /\ getitem table "volume" = Ok volume
    /\ length price = 1%nat
    /\ Forall (fun t => trace_x (fst t) = index table /\ snd t = 1) price.
Proof.
  intros Hct Hheap Hfirst Hsym Hcols.
  destruct (select_window_whole st df table first Hheap Hfirst) as (last & <- & Hsel).
  destruct (draw_chart_drawn st st df df first _ None None chart_type table symbol
              Hct Hsel Hheap Hsym Hcols)
    as (volume & close & price & Hv & _ & Hrun & Hprice).
  exists volume, price. split; [exact Hrun|]. split; [exact Hv|].
  destruct Hprice as [[_ ->]|(o & h & l & _ & _ & _ & [[_ ->]|[_ ->]])];
    (split; [reflexivity|]); repeat constructor.
Qed.

(** X12.  With a bound given, the title names the bound as the caller wrote
    it, not the first or last day that is plotted; a bound left out is
    replaced by the first or the last day of the whole series.  The slice is
    a new table at the end of the store. *)
Theorem draw_chart_title_bounds st df table ds first start stop lo hi chart_type symbol :
  chart_type ∈ ["candle"; "line"; "ohlc"] ->
  heap st !! df = Some table ->
  index table = map (fun d => LTime (Some d)) ds ->
  index table !! 0%nat = Some first ->
  monotonic_increasing ds = true ->
  start <> None \/ stop <> None ->
  bound start = Some lo ->
  bound stop = Some hi ->
  attrs table !! "instrument" = Some symbol ->
  has_columns table (required_columns chart_type) = true ->
  exists fig,
    draw_chart df start stop chart_type st
    = (Ok PyNone,
       logged (Show fig)
         (mkState (self st) (remote st)
            (heap st ++ [spec_window table ds lo hi]) (log st)))
    /\ title fig
       = mkTitle chart_type symbol
           match attrs table !! "interval" with
           | Some i => i
           | None => "daily"
           end
           (from_option LStr first start)
           (from_option LStr (List.last (index table) first) stop).
Proof.
  intros Hct Hheap Hidx Hfirst Hm Hgiven Hlo Hhi Hsym Hcols.
  pose proof (loc_window table ds start stop lo hi Hidx Hm Hlo Hhi) as Hloc.
  pose proof (select_window_sliced st df table first start stop _
                Hheap Hfirst Hgiven Hloc) as Hsel.
  destruct (draw_chart_drawn _ _ df _ _ _ start stop chart_type
              (spec_window table ds lo hi) symbol Hct Hsel)
    as (volume & close & price & _ & _ & Hrun & _);
    [apply list_lookup_middle; reflexivity | exact Hsym | exact Hcols|].
  eexists. split; [exact Hrun | reflexivity].
Qed.

Lemma in_window_inverted a b d :
  date_ltb b a = true -> in_window (Some a) (Some b) d = false.
Proof.
  unfold in_window, date_ltb, date_leb. intros Hba.
  apply Z.ltb_lt in Hba.
  destruct (date_key a <=? date_key d) eqn:Had; [|reflexivity].
  apply Z.leb_le in Had. apply Z.leb_gt. lia.
Qed.

(** X13.  On a table whose row labels are days in increasing order, with its
    instrument and the fields of the chart kind, and for two bounds in the
    documented text form with the start after the end, [draw_chart] does not
    fail: it shows a figure whose two traces are over no rows. *)
Theorem draw_chart_inverted_range st df table ds first s e a b chart_type symbol :
  chart_type ∈ ["candle"; "line"; "ohlc"] ->
  heap st !! df = Some table ->
  index table = map (fun d => LTime (Some d)) ds ->
  index table !! 0%nat = Some first ->
  monotonic_increasing ds = true ->
  parse_date s = Some a ->
  parse_date e = Some b ->
  date_ltb b a = true ->
  attrs table !! "instrument" = Some symbol ->
  has_columns table (required_columns chart_type) = true ->
  exists fig st',
    draw_chart df (Some s) (Some e) chart_type st = (Ok PyNone, st')
    /\ log st' = log st ++ [Show fig]
    /\ length (traces fig) = 2%nat
    /\ Forall (fun t => trace_x (fst t) = []) (traces fig).
Proof.
  intros Hct Hheap Hidx Hfirst Hm Hs He Hba Hsym Hcols.
  assert (Hlo : bound (Some s) = Some (Some a)).
  { unfold bound. rewrite Hs. reflexivity. }
  assert (Hhi : bound (Some e) = Some (Some b)).
  { unfold bound. rewrite He. reflexivity. }
  pose proof (loc_window table ds (Some s) (Some e) (Some a) (Some b)
                Hidx Hm Hlo Hhi) as Hloc.
  assert (Hgiven : Some s <> None \/ Some e <> None) by (left; discriminate).
  pose proof (select_window_sliced st df table first (Some s) (Some e)
                (spec_window table ds (Some a) (Some b))
                Hheap Hfirst Hgiven Hloc) as Hsel.
  set (window := spec_window table ds (Some a) (Some b)) in *.
  assert (Hempty : index window = []).
  { unfold window, spec_window. cbn. apply select_none, Forall_forall.
    intros d _. apply in_window_inverted, Hba. }
  assert (Hw : (heap st ++ [window]) !! length (heap st) = Some window).
  { apply list_lookup_middle; reflexivity. }
  destruct (draw_chart_drawn st _ df _ _ _ (Some s) (Some e) chart_type
              window symbol Hct Hsel Hw Hsym Hcols)
    as (volume & close & price & _ & _ & Hrun & Hprice).
  do 2 eexists. split; [exact Hrun|]. split; [reflexivity|].
  rewrite Hempty in *. 
  cbn.
  destruct Hprice as [[_ ->]|(o & h & l & _ & _ & _ & [[_ ->]|[_ ->]])];
    (split; [reflexivity|]); repeat constructor.
Qed.

End Charts.


Section Pipeline.
Context `{lib : PandasRest}.

(** ** From the prices to the chart *)

(** X14.  The table that [get_daily_prices] returns for a history of dated
    observations can be handed to [draw_chart] as it is: when the
    observations carry the fields of the chart kind, a call without bounds
    shows a figure over the days of the history, in the order of the
    response, titled by the instrument that was fetched, with the interval
    [daily]. *)
Theorem prices_then_chart st symbol code members items recs days chart_type :
  let url := host +:+ "/api/v3/historical-price-full/" +:+ symbol +:+ "?apikey=" +:+
             apikey (self st) in
  remote st url = Response code (Some (JObj members)) ->
  assoc "historical" members = Some (JArr items) ->
  mapM as_record items = Some recs ->
  Forall2 (fun r d => exists s, assoc "date" r = Some (JStr s)
                                /\ parse_date s = Some d) recs days ->
  days <> [] ->
  chart_type ∈ ["candle"; "line"; "ohlc"] ->
  Forall (fun n => n ∈ record_keys recs) (required_columns chart_type) ->
  exists table,
    fst (get_daily_prices symbol st) = Ok (PyFrame table)
    /\ forall st2 df,
         heap st2 !! df = Some table ->
         exists fig,
           draw_chart df None None chart_type st2
           = (Ok PyNone, logged (Show fig) st2)
           /\ title_symbol (title fig) = symbol
           /\ title_interval (title fig) = "daily"
           /\ length (traces fig) = 2%nat
           /\ Forall (fun t => trace_x (fst t)
                               = map (fun d => LTime (Some d)) days)
                (traces fig).
Proof.
  intros url Hr Ha Hm Hdays Hne Hct Hfields.
  destruct (dated_records symbol recs days Hdays Hne)
    as (table & Hdated & Hidx & _ & _ & Hattrs & Hkeep).
  exists table. split.
  { rewrite get_daily_prices_run. fold url. rewrite Hr.
    unfold priced. rewrite Ha.
    assert (Hfrom : from_dict (JArr items) = Ok (frame_of_records recs)).
    { destruct items as [|item items].
      - injection Hm as <-. inversion Hdays. subst. contradiction.
      - unfold from_dict. rewrite Hm. reflexivity. }
    rewrite Hfrom, Hdated. reflexivity. }
  intros st2 df Hheap.
  assert (Hsym : attrs table !! "instrument" = Some symbol).
  { rewrite Hattrs. apply lookup_singleton_eq. }
  assert (Hint : attrs table !! "interval" = None).
  { rewrite Hattrs. apply lookup_singleton_ne. discriminate. }
  assert (Hcols : has_columns table (required_columns chart_type) = true).
  { unfold has_columns. apply forallb_forall. intros n Hn.
    apply list_elem_of_In in Hn.
    apply bool_decide_eq_true. apply Hkeep.
    - intros ->. revert Hn.
      repeat (apply elem_of_cons in Hct as [-> | Hct]);
        try (by apply elem_of_nil in Hct); cbn; intros Hn;
        repeat (apply elem_of_cons in Hn as [Hn | Hn]; [discriminate|]);
        by apply elem_of_nil in Hn.
    - rewrite Forall_forall in Hfields. apply Hfields, Hn. }
  destruct days as [|d0 days']; [contradiction|].
  assert (Hfirst : index table !! 0%nat = Some (LTime (Some d0))).
  { rewrite Hidx. reflexivity. }
  destruct (select_window_whole st2 df table _ Hheap Hfirst) as (last & _ & Hsel).
  destruct (draw_chart_drawn st2 st2 df df _ _ None None chart_type table symbol
              Hct Hsel Hheap Hsym Hcols)
    as (volume & close & price & _ & _ & Hrun & Hprice).
  eexists. split; [exact Hrun|]. cbn. rewrite Hint, Hidx.
  split; [reflexivity|]. split; [reflexivity|].
  destruct Hprice as [[_ ->]|(o & h & l & _ & _ & _ & [[_ ->]|[_ ->]])];
    (split; [reflexivity|]); repeat constructor; cbn; rewrite Hidx; reflexivity.
Qed.

End Pipeline.


(** ** The further properties on concrete inputs *)

(** X1 on a sentiment request to a service out of reach. *)
Lemma fetch_trace_shape_witness :
  let st := demo_state offline [] in
  let c := Call_get_sentiment "AAPL" 10 in
  is_fetch c = true
  /\ exists new,
       log (snd (perform (lib := pandas_refusing) c st)) = log st ++ new
       /\ trace_shape new
       /\ (length (requests_of new) <= 1)%nat
       /\ shows_of new = [].
Proof.
  intros st c. split; [reflexivity|].
  apply (fetch_trace_shape (lib := pandas_refusing) c st). reflexivity.
Defined.

(** X2 on a service out of reach. *)
Lemma transport_failure_propagates_witness :
  let st := demo_state offline [] in
  let c := Call_get_instruments "crypto" in
  is_fetch c = true
  /\ (forall url, remote st url = NetworkError
                  \/ exists code, remote st url = Response code None)
  /\ ((exists msg res,
         perform (lib := pandas_refusing) c st
         = (Ok res, logged (Print (PStr msg)) st))
      \/ (exists url,
            snd (perform (lib := pandas_refusing) c st) = logged (Request url) st
            /\ ((remote st url = NetworkError
                 /\ fst (perform (lib := pandas_refusing) c st)
                    = Raise ConnectionError)
                \/ (exists code, remote st url = Response code None
                    /\ fst (perform (lib := pandas_refusing) c st)
                       = Raise JSONDecodeError)))).
Proof.
  intros st c.
  assert (Hdown : forall url, remote st url = NetworkError
                              \/ exists code, remote st url = Response code None)
    by (intros url; left; reflexivity).
  split; [reflexivity|]. split; [exact Hdown|].
  apply (transport_failure_propagates (lib := pandas_refusing) c st eq_refl Hdown).
Defined.

(** X3 on a body that is not JSON. *)
Lemma tabulating_exceptions_witness :
  let st := demo_state (answering 503 None) [] in
  let c := Call_get_company_info "AAPL" 10 "recommendations" in
  is_tabulating c = true
  /\ fst (perform (lib := pandas_refusing) c st) = Raise JSONDecodeError
  /\ ((JSONDecodeError = ConnectionError
       /\ exists url, remote st url = NetworkError)
      \/ (JSONDecodeError = JSONDecodeError
          /\ exists url code, remote st url = Response code None)
      \/ (except_ValueError JSONDecodeError = false
          /\ exists url code data,
               remote st url = Response code (Some data)
               /\ from_dict (lib := pandas_refusing) data = Raise JSONDecodeError)).
Proof.
  intros st c. split; [reflexivity|]. split; [reflexivity|].
  apply (tabulating_exceptions (lib := pandas_refusing) c st JSONDecodeError);
    reflexivity.
Defined.

(** X4 on the profile. *)
Lemma company_profile_ignores_limit_witness :
  let st := demo_state offline [] in
  "company_profile" ∈ ["company_profile"; "company_rating"]
  /\ get_company_info (lib := pandas_refusing) "AAPL" 1 "company_profile" st
     = get_company_info (lib := pandas_refusing) "AAPL" 100 "company_profile" st.
Proof.
  intros st. split; [compute_done|].
  apply (company_profile_ignores_limit (lib := pandas_refusing)
           st "AAPL" 1 100 "company_profile").
  compute_done.
Defined.

(** X5 on a rating of two fields, a text and a number. *)
Lemma company_profile_rows_are_fields_witness :
  let members := [("symbol", JStr "AAPL"); ("ratingScore", JNum 5)] in
  let st := demo_state (answering 200 (Some (JArr [JObj members]))) [] in
  let url := "https://financialmodelingprep.com/api/v3/rating/AAPL?apikey=demo" in
  "company_rating" ∈ ["company_profile"; "company_rating"]
  /\ company_info_dict (self st) "AAPL" 10 !! "company_rating" = Some url
  /\ remote st url = Response 200 (Some (JArr [JObj members]))
  /\ NoDup members.*1
  /\ ("symbol", JStr "AAPL") ∈ members
  /\ get_company_info (lib := pandas_refusing) "AAPL" 10 "company_rating" st
     = (Ok (PyFrame (mkDataFrame [LStr "info"] [LStr "symbol"; LStr "ratingScore"]
                       [[CJson (JStr "AAPL")]; [CJson (JNum 5)]] ∅)),
        logged (Request url) st).
Proof.
  intros members st url.
  assert (H1 : "company_rating" ∈ ["company_profile"; "company_rating"])
    by compute_done.
  assert (H2 : company_info_dict (self st) "AAPL" 10 !! "company_rating" = Some url)
    by (vm_compute; reflexivity).
  assert (H4 : NoDup members.*1) by compute_done.
  assert (H5 : ("symbol", JStr "AAPL") ∈ members) by apply list_elem_of_here.
  split; [exact H1|]. split; [exact H2|]. split; [reflexivity|]. split; [exact H4|].
  split; [exact H5|].
  apply (company_profile_rows_are_fields (lib := pandas_refusing)
           st "AAPL" 10 "company_rating" url 200 members "symbol" "AAPL"
           H1 H2 eq_refl H4 H5).
Defined.

(** X6 on the forex feed filtered by a pair. *)
Lemma get_market_news_endpoint_witness :
  let st := demo_state offline [] in
  "forex" ∈ ["stock"; "forex"; "crypto"]
  /\ requests_of (log (snd (get_market_news (lib := pandas_refusing)
                              "forex" (Some "EURUSD") 5 st)))
     = ["https://financialmodelingprep.com/api/v4/forex_news?symbol=EURUSD&limit=5&apikey=demo"].
Proof.
  intros st. split; [compute_done|].
  apply (get_market_news_endpoint (lib := pandas_refusing)
           st "forex" (Some "EURUSD") 5).
  compute_done.
Defined.

(** X7 on the history of two days: the rows keep the order of the response. *)
Lemma get_daily_prices_history_witness :
  let st := demo_state (answering 200 (Some aapl_history_response)) [] in
  let url := "https://financialmodelingprep.com/api/v3/historical-price-full/AAPL?apikey=demo" in
  let days := [Date 2023 1 4; Date 2023 1 3] in
  remote st url = Response 200 (Some aapl_history_response)
  /\ mapM as_record (map JObj aapl_history) = Some aapl_history
  /\ Forall2 (fun r d => exists s, assoc "date" r = Some (JStr s)
                                   /\ parse_date s = Some d) aapl_history days
  /\ days <> []
  /\ exists table,
       get_daily_prices (lib := pandas_refusing) "AAPL" st
       = (Ok (PyFrame table), logged (Request url) st)
       /\ index table = [LTime (Some (Date 2023 1 4)); LTime (Some (Date 2023 1 3))]
       /\ length (values table) = 2%nat
       /\ column_pos "date" (columns table) = None
       /\ attrs table = {["instrument" := "AAPL"]}.
Proof.
  intros st url days.
  assert (H4 : Forall2 (fun r d => exists s, assoc "date" r = Some (JStr s)
                                             /\ parse_date s = Some d)
                 aapl_history days)
    by (repeat constructor; eexists; split; reflexivity).
  assert (H5 : days <> []) by discriminate.
  split; [reflexivity|]. split; [reflexivity|]. split; [exact H4|].
  split; [exact H5|].
  destruct (get_daily_prices_history (lib := pandas_refusing)
              st "AAPL" 200 [("historical", JArr (map JObj aapl_history))]
              (map JObj aapl_history) aapl_history days
              eq_refl eq_refl eq_refl H4 H5)
    as (table & Hrun & Hidx & Hlen & Hdate & Hattrs & _).
  exists table. repeat apply conj; assumption.
Defined.

(** X8 on a response whose history is empty. *)
Lemma get_daily_prices_empty_history_witness :
  let members := [("symbol", JStr "AAPL"); ("historical", JArr [])] in
  let st := demo_state (answering 200 (Some (JObj members))) [] in
  let url := "https://financialmodelingprep.com/api/v3/historical-price-full/AAPL?apikey=demo" in
  remote st url = Response 200 (Some (JObj members))
  /\ assoc "historical" members = Some (JArr [])
  /\ get_daily_prices (lib := pandas_refusing) "AAPL" st
     = (Raise KeyError, logged (Request url) st).
Proof.
  intros members st url. split; [reflexivity|]. split; [reflexivity|].
  apply (get_daily_prices_empty_history (lib := pandas_refusing)
           st "AAPL" 200 members eq_refl).
  right. left. reflexivity.
Defined.

(** X10 on the January series without its instrument. *)
Lemma draw_chart_undrawable_witness :
  let st := demo_state offline [untagged_series] in
  "ohlc" ∈ ["candle"; "line"; "ohlc"]
  /\ heap st !! 0%nat = Some untagged_series
  /\ index untagged_series <> []
  /\ attrs untagged_series !! "instrument" = None
  /\ draw_chart (lib := pandas_refusing) 0 None None "ohlc" st
     = (Raise KeyError, st).
Proof.
  intros st.
  assert (H1 : "ohlc" ∈ ["candle"; "line"; "ohlc"]) by compute_done.
  assert (H3 : index untagged_series <> []) by discriminate.
  split; [exact H1|]. split; [reflexivity|]. split; [exact H3|].
  split; [reflexivity|].
  exact (proj1 (proj2 (draw_chart_undrawable (lib := pandas_refusing)
                         st 0%nat untagged_series "ohlc" H1 eq_refl))
           H3 eq_refl).
Defined.

(** X11 on the January series as a line chart. *)
Lemma draw_chart_whole_table_witness :
  let st := demo_state offline [january_series] in
  "line" ∈ ["candle"; "line"; "ohlc"]
  /\ heap st !! 0%nat = Some january_series
  /\ index january_series !! 0%nat = Some (LTime (Some (january 1)))
  /\ attrs january_series !! "instrument" = Some "AAPL"
  /\ has_columns january_series (required_columns "line") = true
  /\ exists fig,
       draw_chart (lib := pandas_refusing) 0 None None "line" st
       = (Ok PyNone, logged (Show fig) st)
       /\ title fig = mkTitle "line" "AAPL" "daily" (LTime (Some (january 1)))
                        (LTime (Some (january 10)))
       /\ heap st = [january_series].
Proof.
  intros st.
  assert (H1 : "line" ∈ ["candle"; "line"; "ohlc"]) by compute_done.
  repeat (split; [first [exact H1 | reflexivity]|]).
  destruct (draw_chart_whole_table (lib := pandas_refusing)
              st 0%nat january_series (LTime (Some (january 1))) "line" "AAPL"
              H1 eq_refl eq_refl eq_refl eq_refl)
    as (volume & price & Hrun & _).
  eexists. split; [exact Hrun|]. split; reflexivity.
Defined.

(** X12 on the January series from 2023-01-02: the title starts with the text
    of the bound, and ends with the last day of the series. *)
Lemma draw_chart_title_bounds_witness :
  let st := demo_state offline [january_series] in
  "candle" ∈ ["candle"; "line"; "ohlc"]
  /\ heap st !! 0%nat = Some january_series
  /\ index january_series = map (fun d => LTime (Some d)) january_days
  /\ index january_series !! 0%nat = Some (LTime (Some (january 1)))
  /\ monotonic_increasing january_days = true
  /\ (Some "2023-01-02" <> None \/ @None string <> None)
  /\ bound (Some "2023-01-02") = Some (Some (january 2))
  /\ bound None = Some None
  /\ attrs january_series !! "instrument" = Some "AAPL"
  /\ has_columns january_series (required_columns "candle") = true
  /\ exists fig,
       fst (draw_chart (lib := pandas_refusing) 0 (Some "2023-01-02") None
              "candle" st) = Ok PyNone
       /\ log (snd (draw_chart (lib := pandas_refusing) 0 (Some "2023-01-02") None
                      "candle" st)) = [Show fig]
       /\ title fig = mkTitle "candle" "AAPL" "daily" (LStr "2023-01-02")
                        (LTime (Some (january 10))).
Proof.
  intros st.
  assert (H1 : "candle" ∈ ["candle"; "line"; "ohlc"]) by compute_done.
  assert (H6 : Some "2023-01-02" <> None \/ @None string <> None)
    by (left; discriminate).
  repeat (split; [first [exact H1 | exact H6 | reflexivity]|]).
  destruct (draw_chart_title_bounds (lib := pandas_refusing)
              st 0%nat january_series january_days (LTime (Some (january 1)))
              (Some "2023-01-02") None (Some (january 2)) None "candle" "AAPL"
              H1 eq_refl eq_refl eq_refl eq_refl H6 eq_refl eq_refl eq_refl eq_refl)
    as (fig & Hrun & Htitle).
  exists fig. rewrite Hrun. split; [reflexivity|]. split; [reflexivity|].
  exact Htitle.
Defined.

(** X13 on the January series from 2023-01-05 to 2023-01-02. *)
Lemma draw_chart_inverted_range_witness :
  let st := demo_state offline [january_series] in
  "candle" ∈ ["candle"; "line"; "ohlc"]
  /\ heap st !! 0%nat = Some january_series
  /\ index january_series = map (fun d => LTime (Some d)) january_days
  /\ index january_series !! 0%nat = Some (LTime (Some (january 1)))
  /\ monotonic_increasing january_days = true
  /\ parse_date "2023-01-05" = Some (january 5)
  /\ parse_date "2023-01-02" = Some (january 2)
  /\ date_ltb (january 2) (january 5) = true
  /\ attrs january_series !! "instrument" = Some "AAPL"
  /\ has_columns january_series (required_columns "candle") = true
  /\ exists fig st',
       draw_chart (lib := pandas_refusing) 0 (Some "2023-01-05")
         (Some "2023-01-02") "candle" st = (Ok PyNone, st')
       /\ log st' = [Show fig]
       /\ length (traces fig) = 2%nat
       /\ Forall (fun t => trace_x (fst t) = []) (traces fig).
Proof.
  intros st.
  assert (H1 : "candle" ∈ ["candle"; "line"; "ohlc"]) by compute_done.
  repeat (split; [first [exact H1 | reflexivity]|]).
  apply (draw_chart_inverted_range (lib := pandas_refusing)
           st 0%nat january_series january_days (LTime (Some (january 1)))
           "2023-01-05" "2023-01-02" (january 5) (january 2) "candle" "AAPL"
           H1 eq_refl eq_refl eq_refl eq_refl eq_refl eq_refl eq_refl eq_refl
           eq_refl).
Defined.

(** X14 on the history of two days, drawn as candles. *)
Lemma prices_then_chart_witness :
  let st := demo_state (answering 200 (Some aapl_history_response)) [] in
  let url := "https://financialmodelingprep.com/api/v3/historical-price-full/AAPL?apikey=demo" in
  let days := [Date 2023 1 4; Date 2023 1 3] in
  remote st url = Response 200 (Some aapl_history_response)
  /\ mapM as_record (map JObj aapl_history) = Some aapl_history
  /\ Forall2 (fun r d => exists s, assoc "date" r = Some (JStr s)
                                   /\ parse_date s = Some d) aapl_history days
  /\ days <> []
  /\ "candle" ∈ ["candle"; "line"; "ohlc"]
  /\ Forall (fun n => n ∈ record_keys aapl_history) (required_columns "candle")
  /\ exists table,
       fst (get_daily_prices (lib := pandas_refusing) "AAPL" st)
       = Ok (PyFrame table)
       /\ exists fig,
            draw_chart (lib := pandas_refusing) 0 None None "candle"
              (demo_state offline [table])
            = (Ok PyNone, logged (Show fig) (demo_state offline [table]))
            /\ title_symbol (title fig) = "AAPL"
            /\ title_interval (title fig) = "daily"
            /\ length (traces fig) = 2%nat
            /\ Forall (fun t => trace_x (fst t)
                                = [LTime (Some (Date 2023 1 4));
                                   LTime (Some (Date 2023 1 3))])
                 (traces fig).
Proof.
  intros st url days.
  assert (H4 : Forall2 (fun r d => exists s, assoc "date" r = Some (JStr s)
                                             /\ parse_date s = Some d)
                 aapl_history days)
    by (repeat constructor; eexists; split; reflexivity).
  assert (H5 : days <> []) by discriminate.
  assert (H6 : "candle" ∈ ["candle"; "line"; "ohlc"]) by compute_done.
  assert (H7 : Forall (fun n => n ∈ record_keys aapl_history)
                 (required_columns "candle"))
    by (repeat constructor; compute_done).
  split; [reflexivity|]. split; [reflexivity|]. split; [exact H4|].
  split; [exact H5|]. split; [exact H6|]. split; [exact H7|].
  destruct (prices_then_chart (lib := pandas_refusing)
              st "AAPL" 200 [("historical", JArr (map JObj aapl_history))]
              (map JObj aapl_history) aapl_history days "candle"
              eq_refl eq_refl eq_refl H4 H5 H6 H7)
    as (table & Hrun & Hchart).
  exists table. split; [exact Hrun|].
  apply (Hchart (demo_state offline [table]) 0%nat). reflexivity.
Defined.
